(** * student_system: the record service of [app/main.py]

    A shallow embedding of the FastAPI application in [src/app/main.py]:
    three JSON files ([users.json], [lecturers.json], [evaluations.json]),
    each holding a list of flat JSON objects, and the endpoint functions
    that read a whole file, validate, append and write the file back.

    - JSON objects are Python dicts: finite maps from strings to JSON values.
    - The working directory is a finite map from file names to file contents.
    - Endpoint functions live in a state-and-exception monad over the
      working directory; [HTTPException], [KeyError] and [FileNotFoundError]
      are the exceptions the code can raise.
    - [f"{n:04d}"] is decimal printing followed by zero padding to width 4. *)

From Stdlib Require Import ZArith String Ascii List Decimal DecimalString DecimalNat.
From stdpp Require Import base option list strings gmap fin_maps.

Local Open Scope string_scope.
Local Open Scope list_scope.

(** ** JSON values and Python dicts *)

(** The scalar JSON values that occur in the flat records of the three
    collections.  Python compares values of different types as unequal,
    which is what constructor equality gives. *)
Inductive json : Type :=
  | JNull
  | JBool (b : bool)
  | JInt (z : Z)
  | JStr (s : string).

#[global] Instance json_eq_dec : EqDecision json.
Proof. solve_decision. Defined.

(** A dict with string keys, as [json.load] returns for a JSON object. *)
Abbreviation dict := (gmap string json).

(** The contents of the directory the application runs in: every file that
    exists holds a JSON array of objects. *)
Abbreviation files := (gmap string (list (gmap string json))).

(** ** Exceptions and the monad of endpoint functions *)

Inductive exn : Type :=
  | HTTPException (status_code : Z) (detail : string)
  | KeyError (key : string)
  | FileNotFoundError (path : string).

#[global] Instance exn_eq_dec : EqDecision exn.
Proof. solve_decision. Defined.

Inductive outcome (A : Type) : Type :=
  | Return (a : A)
  | Raise (e : exn).
Arguments Return {A} a.
Arguments Raise {A} e.

#[global] Instance outcome_ret : MRet outcome := @Return.
#[global] Instance outcome_bind : MBind outcome := λ A B f m,
  match m with
  | Return a => f a
  | Raise e => Raise e
  end.

(** A computation reads and writes the files and returns or raises.  A raise
    keeps the files as they are at that point: nothing is rolled back. *)
Definition io (A : Type) : Type := files → outcome A * files.

#[global] Instance io_ret : MRet io := λ A a st, (Return a, st).
#[global] Instance io_bind : MBind io := λ A B f m st,
  match m st with
  | (Return a, st') => f a st'
  | (Raise e, st') => (Raise e, st')
  end.

#[global] Instance io_fmap : FMap io := λ A B f m st,
  match m st with
  | (Return a, st') => (Return (f a), st')
  | (Raise e, st') => (Raise e, st')
  end.

Definition raise {A : Type} (e : exn) : io A := λ st, (Raise e, st).

Definition lift {A : Type} (m : outcome A) : io A := λ st, (m, st).

(** ** File paths *)

Definition USERS_FILE : string := "users.json".
Definition LECTURERS_FILE : string := "lecturers.json".
Definition EVALUATIONS_FILE : string := "evaluations.json".

(** [ensure_files_exist]: every collection file that is absent is created
    holding the empty array. *)
Definition ensure_files_exist (st : files) : files :=
  foldl (λ st file, if decide (is_Some (st !! file)) then st
                    else <[file := []]> st)
        st [USERS_FILE; LECTURERS_FILE; EVALUATIONS_FILE].

(** ** Models *)

Module UserCreate.
Record t : Type := mk { name : string; email : string }.
End UserCreate.

Module LecturerCreate.
Record t : Type := mk { name : string; department : string }.
End LecturerCreate.

Module EvaluationCreate.
Record t : Type := mk {
  user_index : string;
  lecturer_id : string;
  rating : Z;
  comments : option string
}.

(** The default of the field declared [comments: str | None = None]. *)
Definition comments_default : option string := None.

(** Building the model from the fields of a request body: [comments_field]
    is [None] when the body has no [comments] member. *)
Definition init (user_index lecturer_id : string) (rating : Z)
    (comments_field : option (option string)) : t :=
  mk user_index lecturer_id rating
     (default comments_default comments_field).
End EvaluationCreate.

(** ** Utility functions *)

Definition read_json (file_path : string) : io (list dict) := λ st,
  match st !! file_path with
  | Some data => (Return data, st)
  | None => (Raise (FileNotFoundError file_path), st)
  end.

Definition write_json (file_path : string) (data : list dict) : io unit :=
  λ st, (Return tt, <[file_path := data]> st).

(** [d[key]] *)
Definition getitem (d : dict) (key : string) : outcome json :=
  match d !! key with
  | Some v => Return v
  | None => Raise (KeyError key)
  end.

(** [any(p(x) for x in xs)]: stops at the first true element, and an
    exception raised by [p] on the way propagates. *)
Fixpoint any {A : Type} (p : A → outcome bool) (xs : list A) : outcome bool :=
  match xs with
  | [] => Return false
  | x :: xs' =>
      match p x with
      | Return true => Return true
      | Return false => any p xs'
      | Raise e => Raise e
      end
  end.

(** [d[key] == s] for a string [s]. *)
Definition field_equals (key : string) (s : string) (d : dict) : outcome bool :=
  v ← getitem d key; Return (bool_decide (v = JStr s)).

(** *** Formatting [f"{n:04d}"] *)

Fixpoint zeros (k : nat) : string :=
  match k with
  | O => ""
  | S k' => String "0" (zeros k')
  end.

Definition str_of_nat (n : nat) : string :=
  NilEmpty.string_of_uint (Nat.to_uint n).

(** Zero padding on the left up to [width] characters; longer strings are
    left as they are. *)
Definition zfill (width : nat) (s : string) : string :=
  zeros (width - String.length s) +:+ s.

Definition format_04d (n : nat) : string := zfill 4 (str_of_nat n).

Definition generate_user_index : io string :=
  users ← read_json USERS_FILE;
  mret (format_04d (length users + 1)).

Definition generate_lecturer_id : io string :=
  lecturers ← read_json LECTURERS_FILE;
  mret ("L" +:+ format_04d (length lecturers + 1)).

(** JSON value of an optional string: [None] is [null]. *)
Definition json_of_opt_str (o : option string) : json :=
  match o with
  | Some s => JStr s
  | None => JNull
  end.

(** ** Endpoints *)

Definition user_record (user_index : string) (user : UserCreate.t) : dict :=
  {[ "index" := JStr user_index;
     "name" := JStr (UserCreate.name user);
     "email" := JStr (UserCreate.email user) ]}.

Definition register_user (user : UserCreate.t) : io dict :=
  users ← read_json USERS_FILE;
  exists_ ← lift (any (field_equals "email" (UserCreate.email user)) users);
  if (exists_ : bool) then raise (HTTPException 400 "User already exists")
  else
    user_index ← generate_user_index;
    let users := users ++ [user_record user_index user] in
    _ ← write_json USERS_FILE users;
    mret ({[ "index" := JStr user_index;
             "message" := JStr "User registered successfully" ]} : dict).

Definition lecturer_record (lecturer_id : string) (lecturer : LecturerCreate.t)
    : dict :=
  {[ "id" := JStr lecturer_id;
     "name" := JStr (LecturerCreate.name lecturer);
     "department" := JStr (LecturerCreate.department lecturer) ]}.

Definition add_lecturer (lecturer : LecturerCreate.t) : io dict :=
  lecturers ← read_json LECTURERS_FILE;
  lecturer_id ← generate_lecturer_id;
  let lecturers := lecturers ++ [lecturer_record lecturer_id lecturer] in
  _ ← write_json LECTURERS_FILE lecturers;
  mret ({[ "lecturer_id" := JStr lecturer_id;
           "message" := JStr "Lecturer added successfully" ]} : dict).

Definition list_lecturers : io (list dict) :=
  lecturers ← read_json LECTURERS_FILE;
  mret lecturers.

Definition evaluation_record (evaluation : EvaluationCreate.t) : dict :=
  {[ "user_index" := JStr (EvaluationCreate.user_index evaluation);
     "lecturer_id" := JStr (EvaluationCreate.lecturer_id evaluation);
     "rating" := JInt (EvaluationCreate.rating evaluation);
     "comments" := json_of_opt_str (EvaluationCreate.comments evaluation) ]}.

Definition evaluate_lecturer (evaluation : EvaluationCreate.t) : io dict :=
  users ← read_json USERS_FILE;
  lecturers ← read_json LECTURERS_FILE;
  evaluations ← read_json EVALUATIONS_FILE;
  user_found ← lift (any (field_equals "index"
                            (EvaluationCreate.user_index evaluation)) users);
  if negb user_found then raise (HTTPException 404 "User not found")
  else
    lecturer_found ← lift (any (field_equals "id"
                            (EvaluationCreate.lecturer_id evaluation)) lecturers);
    if negb lecturer_found then raise (HTTPException 404 "Lecturer not found")
    else
      if (EvaluationCreate.rating evaluation <? 1)%Z
         || (EvaluationCreate.rating evaluation >? 5)%Z
      then raise (HTTPException 400 "Rating must be between 1 and 5")
      else
        let evaluations := evaluations ++ [evaluation_record evaluation] in
        _ ← write_json EVALUATIONS_FILE evaluations;
        mret ({[ "message" := JStr "Evaluation submitted successfully" ]} : dict).

Definition get_evaluations : io (list dict) :=
  evaluations ← read_json EVALUATIONS_FILE;
  mret evaluations.

Definition read_root : io dict :=
  mret ({[ "message" := JStr "Hello, guys!" ]} : dict).

(** ** The application as a server *)

(** A request names an endpoint and carries its validated body. *)
Inductive request : Type :=
  | RegisterUser (user : UserCreate.t)
  | AddLecturer (lecturer : LecturerCreate.t)
  | ListLecturers
  | SubmitEvaluation (evaluation : EvaluationCreate.t)
  | ListEvaluations
  | ReadRoot.

(** What an endpoint returns: a JSON object or a JSON array of objects. *)
Inductive response : Type :=
  | Object (d : dict)
  | Array (l : list dict).

Definition handle (r : request) : io response :=
  match r with
  | RegisterUser user => Object <$> register_user user
  | AddLecturer lecturer => Object <$> add_lecturer lecturer
  | ListLecturers => Array <$> list_lecturers
  | SubmitEvaluation evaluation => Object <$> evaluate_lecturer evaluation
  | ListEvaluations => Array <$> get_evaluations
  | ReadRoot => Object <$> read_root
  end.

(** Serving a sequence of requests one after the other.  The log pairs each
    request with what its handler returned or raised; a handler that raises
    leaves the files as they were when it raised, and the server goes on. *)
Fixpoint serve (reqs : list request) (st : files)
    : list (request * outcome response) * files :=
  match reqs with
  | [] => ([], st)
  | r :: reqs' =>
      let '(o, st') := handle r st in
      let '(log, st'') := serve reqs' st' in
      ((r, o) :: log, st'')
  end.

(** The state right after the module is loaded in an empty directory. *)
Definition initial : files := ensure_files_exist ∅.

(** ** Vocabulary of the properties *)

(** [int(s)] on a string of decimal digits. *)
Definition nat_of_str (s : string) : option nat :=
  Nat.of_uint <$> NilEmpty.uint_of_string s.

(** The values a collection holds under one key, row by row; [None] where a
    row lacks the key. *)
Definition column (key : string) (rows : list dict) : list (option json) :=
  (.!! key) <$> rows.

(** Every row has the key: [row[key]] never raises on this collection. *)
Definition has_field (key : string) (rows : list dict) : Prop :=
  Forall (λ row : dict, is_Some (row !! key)) rows.

#[global] Instance has_field_dec key rows : Decision (has_field key rows).
Proof. unfold has_field. apply _. Defined.

(** The error kinds of the interface, as the exceptions the endpoints raise. *)
Definition DuplicateEntity : exn := HTTPException 400 "User already exists".
Definition UserNotFound : exn := HTTPException 404 "User not found".
Definition LecturerNotFound : exn := HTTPException 404 "Lecturer not found".
Definition OutOfRange : exn :=
  HTTPException 400 "Rating must be between 1 and 5".

Definition NotFound (e : exn) : Prop :=
  e = UserNotFound ∨ e = LecturerNotFound.

(** The bodies of the successful responses. *)
Definition user_registered (user_index : string) : dict :=
  {[ "index" := JStr user_index;
     "message" := JStr "User registered successfully" ]}.

Definition lecturer_added (lecturer_id : string) : dict :=
  {[ "lecturer_id" := JStr lecturer_id;
     "message" := JStr "Lecturer added successfully" ]}.

Definition evaluation_submitted : dict :=
  {[ "message" := JStr "Evaluation submitted successfully" ]}.

(** *** A scenario: two students, one lecturer, one evaluation *)

Definition alice : UserCreate.t := UserCreate.mk "Alice" "a@x.com".
Definition bob : UserCreate.t := UserCreate.mk "Bob" "b@x.com".
Definition dr_x : LecturerCreate.t := LecturerCreate.mk "Dr. X" "CS".
Definition praise : EvaluationCreate.t :=
  EvaluationCreate.mk "0001" "L0001" 5 (Some "Clear lectures").

Definition scenario : list request :=
  [RegisterUser alice; RegisterUser bob; AddLecturer dr_x;
   SubmitEvaluation praise].

Definition sample : files := (serve scenario initial).2.

(** *** The checks of an evaluation request *)

Definition user_exists (user_index : string) (users : list dict) : bool :=
  bool_decide (Some (JStr user_index) ∈ column "index" users).

Definition lecturer_exists (lecturer_id : string) (lecturers : list dict)
    : bool :=
  bool_decide (Some (JStr lecturer_id) ∈ column "id" lecturers).

Definition rating_in_range (rating : Z) : bool :=
  bool_decide (1 ≤ rating ≤ 5)%Z.

(** How many of the three checks a request fails. *)
Definition failing_checks (evaluation : EvaluationCreate.t)
    (users lecturers : list dict) : nat :=
  (if rating_in_range (EvaluationCreate.rating evaluation) then 0 else 1)
  + (if user_exists (EvaluationCreate.user_index evaluation) users
     then 0 else 1)
  + (if lecturer_exists (EvaluationCreate.lecturer_id evaluation) lecturers
     then 0 else 1).

(** The first failing check when the checks are taken in the order
    rating range, user existence, lecturer existence. *)
Definition first_failure_rating_first (evaluation : EvaluationCreate.t)
    (users lecturers : list dict) : option exn :=
  if negb (rating_in_range (EvaluationCreate.rating evaluation))
  then Some OutOfRange
  else if negb (user_exists (EvaluationCreate.user_index evaluation) users)
  then Some UserNotFound
  else if negb (lecturer_exists (EvaluationCreate.lecturer_id evaluation)
                  lecturers)
  then Some LecturerNotFound
  else None.

(** The first failing check when the checks are taken in the order
    user existence, lecturer existence, rating range. *)
Definition first_failure_user_first (evaluation : EvaluationCreate.t)
    (users lecturers : list dict) : option exn :=
  if negb (user_exists (EvaluationCreate.user_index evaluation) users)
  then Some UserNotFound
  else if negb (lecturer_exists (EvaluationCreate.lecturer_id evaluation)
                  lecturers)
  then Some LecturerNotFound
  else if negb (rating_in_range (EvaluationCreate.rating evaluation))
  then Some OutOfRange
  else None.

(** A state in which the three collections exist and their records carry
    the keys the evaluation endpoint reads. *)
Record collections (st : files) (users lecturers evaluations : list dict)
    : Prop := {
  users_stored : st !! USERS_FILE = Some users;
  lecturers_stored : st !! LECTURERS_FILE = Some lecturers;
  evaluations_stored : st !! EVALUATIONS_FILE = Some evaluations;
  users_indexed : has_field "index" users;
  lecturers_identified : has_field "id" lecturers
}.

(** The reading of "reports the first failure in the order rating range,
    user existence, lecturer existence" for requests failing several checks. *)
Definition reports_rating_first : Prop :=
  ∀ (evaluation : EvaluationCreate.t) (st : files)
    (users lecturers evaluations : list dict) (e : exn),
    collections st users lecturers evaluations →
    (2 ≤ failing_checks evaluation users lecturers)%nat →
    first_failure_rating_first evaluation users lecturers = Some e →
    (evaluate_lecturer evaluation st).1 = Raise e.

(** [add_lecturer] returns on this request in this state. *)
Definition accepts_lecturer (lecturer : LecturerCreate.t) (st : files) : Prop :=
  ∃ resp st', add_lecturer lecturer st = (Return resp, st').

(** The reading of "accepts exactly the non-empty strings". *)
Definition accepts_exactly_nonempty : Prop :=
  ∀ (lecturer : LecturerCreate.t) (st : files) (lecturers : list dict),
    st !! LECTURERS_FILE = Some lecturers →
    (accepts_lecturer lecturer st
     ↔ LecturerCreate.name lecturer ≠ ""
       ∧ LecturerCreate.department lecturer ≠ "").

(** *** What one request can do *)

(** The possible effects of handling one request in state [st]: the outcome
    and the state afterwards.  A handler that raises changes nothing; a read
    returns a whole collection and changes nothing; a create appends one
    record to its collection. *)
Inductive step (st : files) : request → outcome response → files → Prop :=
  | step_raise (r : request) (e : exn) :
      step st r (Raise e) st
  | step_read_root :
      step st ReadRoot (Return (Object {[ "message" := JStr "Hello, guys!" ]})) st
  | step_list_lecturers (lecturers : list dict) :
      st !! LECTURERS_FILE = Some lecturers →
      step st ListLecturers (Return (Array lecturers)) st
  | step_list_evaluations (evaluations : list dict) :
      st !! EVALUATIONS_FILE = Some evaluations →
      step st ListEvaluations (Return (Array evaluations)) st
  | step_register (user : UserCreate.t) (users : list dict) :
      st !! USERS_FILE = Some users →
      Some (JStr (UserCreate.email user)) ∉ column "email" users →
      step st (RegisterUser user)
        (Return (Object (user_registered (format_04d (length users + 1)))))
        (<[USERS_FILE :=
             users ++ [user_record (format_04d (length users + 1)) user]]> st)
  | step_add_lecturer (lecturer : LecturerCreate.t) (lecturers : list dict) :
      st !! LECTURERS_FILE = Some lecturers →
      step st (AddLecturer lecturer)
        (Return (Object
                   (lecturer_added
                      ("L" +:+ format_04d (length lecturers + 1)))))
        (<[LECTURERS_FILE :=
             lecturers
             ++ [lecturer_record ("L" +:+ format_04d (length lecturers + 1))
                   lecturer]]> st)
  | step_evaluate (evaluation : EvaluationCreate.t)
        (users lecturers evaluations : list dict) :
      st !! USERS_FILE = Some users →
      st !! LECTURERS_FILE = Some lecturers →
      st !! EVALUATIONS_FILE = Some evaluations →
      Some (JStr (EvaluationCreate.user_index evaluation))
        ∈ column "index" users →
      Some (JStr (EvaluationCreate.lecturer_id evaluation))
        ∈ column "id" lecturers →
      (1 ≤ EvaluationCreate.rating evaluation ≤ 5)%Z →
      step st (SubmitEvaluation evaluation)
        (Return (Object evaluation_submitted))
        (<[EVALUATIONS_FILE :=
             evaluations ++ [evaluation_record evaluation]]> st).

(** A run: the steps of a sequence of requests, with its log. *)
Inductive steps : files → list (request * outcome response) → files → Prop :=
  | steps_nil (st : files) : steps st [] st
  | steps_cons (st st' st'' : files) (r : request) (o : outcome response)
        (log : list (request * outcome response)) :
      step st r o st' →
      steps st' log st'' →
      steps st ((r, o) :: log) st''.

(** *** Reading a log *)

(** The entry is a registration that succeeded. *)
Definition registered (entry : request * outcome response) : bool :=
  match entry with
  | (RegisterUser _, Return _) => true
  | _ => false
  end.

(** The entry is a lecturer addition that succeeded. *)
Definition lecturer_was_added (entry : request * outcome response) : bool :=
  match entry with
  | (AddLecturer _, Return _) => true
  | _ => false
  end.

Definition registrations (log : list (request * outcome response)) : nat :=
  length (List.filter registered log).

Definition additions (log : list (request * outcome response)) : nat :=
  length (List.filter lecturer_was_added log).

(** The value a successful response carries under [key]. *)
Definition returned (key : string) (entry : request * outcome response)
    : option json :=
  match entry.2 with
  | Return (Object resp) => resp !! key
  | _ => None
  end.

(** The indices handed out by the successful registrations of a log, and the
    ids handed out by its successful lecturer additions, in order. *)
Definition returned_indices (log : list (request * outcome response))
    : list (option json) :=
  returned "index" <$> List.filter registered log.

Definition returned_ids (log : list (request * outcome response))
    : list (option json) :=
  returned "lecturer_id" <$> List.filter lecturer_was_added log.

(** ["0001"; "0002"; ...; "%04d" % n] and ["L0001"; ...; "L%04d" % n], as
    the JSON strings stored under a key. *)
Definition user_indices_from (start n : nat) : list (option json) :=
  (λ k, Some (JStr (format_04d k))) <$> seq start n.

Definition lecturer_ids_from (start n : nat) : list (option json) :=
  (λ k, Some (JStr ("L" +:+ format_04d k))) <$> seq start n.

Definition user_indices (n : nat) : list (option json) :=
  user_indices_from 1 n.

Definition lecturer_ids (n : nat) : list (option json) :=
  lecturer_ids_from 1 n.

(** *** Invariants of the stored collections *)

(** Every row carries the key, and no two rows carry the same value. *)
Definition unique (key : string) (rows : list dict) : Prop :=
  has_field key rows ∧ NoDup (column key rows).

(** A stored evaluation names an existing user and an existing lecturer and
    carries a rating between 1 and 5. *)
Definition evaluation_valid (users lecturers : list dict) (evaluation : dict)
    : Prop :=
  (∃ user_index : string,
      evaluation !! "user_index" = Some (JStr user_index)
      ∧ Some (JStr user_index) ∈ column "index" users)
  ∧ (∃ lecturer_id : string,
      evaluation !! "lecturer_id" = Some (JStr lecturer_id)
      ∧ Some (JStr lecturer_id) ∈ column "id" lecturers)
  ∧ (∃ rating : Z,
      evaluation !! "rating" = Some (JInt rating) ∧ (1 ≤ rating ≤ 5)%Z).

Definition consistent (st : files) : Prop :=
  ∃ users lecturers evaluations : list dict,
    st !! USERS_FILE = Some users
    ∧ st !! LECTURERS_FILE = Some lecturers
    ∧ st !! EVALUATIONS_FILE = Some evaluations
    ∧ unique "index" users
    ∧ unique "email" users
    ∧ unique "id" lecturers
    ∧ Forall (evaluation_valid users lecturers) evaluations.

(** The part of the invariant that one step preserves on its own. *)
Definition emails_and_references (st : files) : Prop :=
  ∃ users lecturers evaluations : list dict,
    st !! USERS_FILE = Some users
    ∧ st !! LECTURERS_FILE = Some lecturers
    ∧ st !! EVALUATIONS_FILE = Some evaluations
    ∧ unique "email" users
    ∧ Forall (evaluation_valid users lecturers) evaluations.

(** *** The records a log says were created *)

(** The lecturer record of a successful addition: the id is the one the
    response carried, name and department are those of the request. *)
Definition created_lecturer (entry : request * outcome response)
    : option dict :=
  match entry with
  | (AddLecturer lecturer, Return (Object resp)) =>
      match resp !! "lecturer_id" with
      | Some (JStr lecturer_id) =>
          Some {[ "id" := JStr lecturer_id;
                  "name" := JStr (LecturerCreate.name lecturer);
                  "department" := JStr (LecturerCreate.department lecturer) ]}
      | _ => None
      end
  | _ => None
  end.

(** The evaluation record of a successful submission: the four fields of the
    request, an absent comment stored as [null]. *)
Definition created_evaluation (entry : request * outcome response)
    : option dict :=
  match entry with
  | (SubmitEvaluation evaluation, Return _) =>
      Some {[ "user_index" := JStr (EvaluationCreate.user_index evaluation);
              "lecturer_id" := JStr (EvaluationCreate.lecturer_id evaluation);
              "rating" := JInt (EvaluationCreate.rating evaluation);
              "comments" :=
                json_of_opt_str (EvaluationCreate.comments evaluation) ]}
  | _ => None
  end.

Definition created_lecturers (log : list (request * outcome response))
    : list dict :=
  omap created_lecturer log.

Definition created_evaluations (log : list (request * outcome response))
    : list dict :=
  omap created_evaluation log.

(** The entry is an evaluation submission that succeeded. *)
Definition evaluation_was_submitted (entry : request * outcome response)
    : bool :=
  match entry with
  | (SubmitEvaluation _, Return _) => true
  | _ => false
  end.

Definition submissions (log : list (request * outcome response)) : nat :=
  length (List.filter evaluation_was_submitted log).

(** ** Vocabulary of the further properties *)

(** *** Errors a client can be answered with *)

(** The HTTP errors each endpoint raises on purpose. *)
Definition possible_errors (r : request) : list exn :=
  match r with
  | RegisterUser _ => [DuplicateEntity]
  | SubmitEvaluation _ => [UserNotFound; LecturerNotFound; OutOfRange]
  | AddLecturer _ | ListLecturers | ListEvaluations | ReadRoot => []
  end.

(** The three files exist and every stored user carries ["index"] and
    ["email"], every stored lecturer ["id"]. *)
Definition well_formed (st : files) : Prop :=
  ∃ users lecturers evaluations : list dict,
    collections st users lecturers evaluations ∧ has_field "email" users.

(** The entry is a call that returned. *)
Definition succeeded (entry : request * outcome response) : bool :=
  match entry.2 with
  | Return _ => true
  | Raise _ => false
  end.

(** * Properties *)

Ltac io_unfold :=
  unfold mbind, mret, fmap, io_bind, io_ret, io_fmap, lift, raise,
    read_json, write_json.

Example format_04d_1 : format_04d 1 = "0001".
Proof. reflexivity. Qed.

Example format_04d_10000 : format_04d (100 * 100) = "10000".
Proof. reflexivity. Qed.

(** ** Formatting: reading a formatted number back *)

Lemma nat_of_str_of_nat (n : nat) : nat_of_str (str_of_nat n) = Some n.
Proof.
  unfold nat_of_str, str_of_nat.
  rewrite NilEmpty.usu. simpl. f_equal. apply DecimalNat.Unsigned.of_to.
Qed.

Lemma nat_of_str_leading_zero (s : string) :
  nat_of_str (String "0" s) = nat_of_str s.
Proof.
  unfold nat_of_str. cbn [NilEmpty.uint_of_string].
  by destruct (NilEmpty.uint_of_string s).
Qed.

Lemma nat_of_str_zeros (k : nat) (s : string) :
  nat_of_str (zeros k +:+ s) = nat_of_str s.
Proof.
  induction k as [|k IH]; [done|].
  change (zeros (S k) +:+ s) with (String "0" (zeros k +:+ s)).
  by rewrite nat_of_str_leading_zero.
Qed.

Lemma nat_of_str_format_04d (n : nat) : nat_of_str (format_04d n) = Some n.
Proof.
  unfold format_04d, zfill. rewrite nat_of_str_zeros. apply nat_of_str_of_nat.
Qed.

#[global] Instance format_04d_inj : Inj (=) (=) format_04d.
Proof.
  intros n m Heq. apply (f_equal nat_of_str) in Heq.
  rewrite !nat_of_str_format_04d in Heq. by injection Heq.
Qed.

(** ** Looking a value up in a collection *)

Lemma column_app key (rows rows' : list dict) :
  column key (rows ++ rows') = column key rows ++ column key rows'.
Proof. apply fmap_app. Qed.

Lemma column_length key (rows : list dict) :
  length (column key rows) = length rows.
Proof. apply length_fmap. Qed.

Lemma has_field_app key (rows rows' : list dict) :
  has_field key (rows ++ rows') ↔ has_field key rows ∧ has_field key rows'.
Proof. apply Forall_app. Qed.

Lemma any_field_equals key s (rows : list dict) :
  has_field key rows →
  any (field_equals key s) rows
  = Return (bool_decide (Some (JStr s) ∈ column key rows)).
Proof.
  induction 1 as [|row rows [v Hv] _ IH]; [done|].
  cbn [any column fmap list_fmap]. unfold field_equals at 1, getitem.
  rewrite Hv. cbn [mbind outcome_bind].
  destruct (decide (v = JStr s)) as [->|Hne].
  - rewrite (bool_decide_eq_true_2 (JStr s = JStr s)) by done.
    rewrite bool_decide_eq_true_2; [done | left].
  - rewrite (bool_decide_eq_false_2 (v = JStr s)) by done.
    rewrite IH. f_equal. apply bool_decide_ext. unfold column.
    rewrite elem_of_cons. intuition congruence.
Qed.

(** ** What each endpoint does, as equations *)

Lemma register_user_duplicate (user : UserCreate.t) (st : files) users :
  st !! USERS_FILE = Some users →
  has_field "email" users →
  Some (JStr (UserCreate.email user)) ∈ column "email" users →
  register_user user st = (Raise (HTTPException 400 "User already exists"), st).
Proof.
  intros Hst Hwf Hdup. unfold register_user. io_unfold.
  rewrite Hst, (any_field_equals _ _ _ Hwf).
  by rewrite bool_decide_eq_true_2.
Qed.

Lemma register_user_fresh (user : UserCreate.t) (st : files) users :
  st !! USERS_FILE = Some users →
  has_field "email" users →
  Some (JStr (UserCreate.email user)) ∉ column "email" users →
  let user_index := format_04d (length users + 1) in
  register_user user st
  = (Return {[ "index" := JStr user_index;
               "message" := JStr "User registered successfully" ]},
     <[USERS_FILE := users ++ [user_record user_index user]]> st).
Proof.
  intros Hst Hwf Hdup. unfold register_user, generate_user_index. io_unfold.
  rewrite Hst, (any_field_equals _ _ _ Hwf).
  rewrite bool_decide_eq_false_2 by done. by rewrite Hst.
Qed.

Lemma add_lecturer_appends (lecturer : LecturerCreate.t) (st : files) lecturers :
  st !! LECTURERS_FILE = Some lecturers →
  let lecturer_id := "L" +:+ format_04d (length lecturers + 1) in
  add_lecturer lecturer st
  = (Return {[ "lecturer_id" := JStr lecturer_id;
               "message" := JStr "Lecturer added successfully" ]},
     <[LECTURERS_FILE := lecturers ++ [lecturer_record lecturer_id lecturer]]> st).
Proof.
  intros Hst. unfold add_lecturer, generate_lecturer_id. io_unfold.
  rewrite Hst. cbv beta iota. rewrite Hst. reflexivity.
Qed.

Lemma any_field_equals_true key s (rows : list dict) :
  any (field_equals key s) rows = Return true →
  Some (JStr s) ∈ column key rows.
Proof.
  induction rows as [|row rows IH]; [done|].
  cbn [any column fmap list_fmap]. unfold field_equals at 1, getitem.
  destruct (row !! key) as [v|] eqn:Hv; [|done]. cbn [mbind outcome_bind].
  case_bool_decide as Heq.
  - intros _. subst v. left.
  - intros Hany. right. by apply IH.
Qed.

Lemma any_field_equals_false key s (rows : list dict) :
  any (field_equals key s) rows = Return false →
  Some (JStr s) ∉ column key rows.
Proof.
  induction rows as [|row rows IH]; [intros _; apply not_elem_of_nil|].
  cbn [any column fmap list_fmap]. unfold field_equals at 1, getitem.
  destruct (row !! key) as [v|] eqn:Hv; [|done]. cbn [mbind outcome_bind].
  case_bool_decide as Heq; [done|].
  intros Hany. rewrite not_elem_of_cons. split; [congruence | by apply IH].
Qed.

Section evaluate_lecturer_equations.
Context (evaluation : EvaluationCreate.t) (st : files).
Context (users lecturers evaluations : list dict).
Hypothesis Husers : st !! USERS_FILE = Some users.
Hypothesis Hlecturers : st !! LECTURERS_FILE = Some lecturers.
Hypothesis Hevaluations : st !! EVALUATIONS_FILE = Some evaluations.

Let user_index := EvaluationCreate.user_index evaluation.
Let lecturer_id := EvaluationCreate.lecturer_id evaluation.
Let rating := EvaluationCreate.rating evaluation.

Lemma evaluate_lecturer_user_not_found :
  has_field "index" users →
  Some (JStr user_index) ∉ column "index" users →
  evaluate_lecturer evaluation st
  = (Raise (HTTPException 404 "User not found"), st).
Proof.
  intros Hwf Hno. unfold evaluate_lecturer. io_unfold.
  rewrite Husers, Hlecturers, Hevaluations, (any_field_equals _ _ _ Hwf).
  by rewrite bool_decide_eq_false_2.
Qed.

Lemma evaluate_lecturer_lecturer_not_found :
  has_field "index" users →
  Some (JStr user_index) ∈ column "index" users →
  has_field "id" lecturers →
  Some (JStr lecturer_id) ∉ column "id" lecturers →
  evaluate_lecturer evaluation st
  = (Raise (HTTPException 404 "Lecturer not found"), st).
Proof.
  intros Hwf Hu Hwf' Hno. unfold evaluate_lecturer. io_unfold.
  rewrite Husers, Hlecturers, Hevaluations, (any_field_equals _ _ _ Hwf).
  rewrite bool_decide_eq_true_2 by done. cbv beta iota.
  rewrite (any_field_equals _ _ _ Hwf').
  by rewrite bool_decide_eq_false_2.
Qed.

Lemma evaluate_lecturer_rating_out_of_range :
  has_field "index" users →
  Some (JStr user_index) ∈ column "index" users →
  has_field "id" lecturers →
  Some (JStr lecturer_id) ∈ column "id" lecturers →
  (rating < 1 ∨ 5 < rating)%Z →
  evaluate_lecturer evaluation st
  = (Raise (HTTPException 400 "Rating must be between 1 and 5"), st).
Proof.
  intros Hwf Hu Hwf' Hl Hr. unfold evaluate_lecturer. io_unfold.
  rewrite Husers, Hlecturers, Hevaluations, (any_field_equals _ _ _ Hwf).
  rewrite bool_decide_eq_true_2 by done. cbv beta iota.
  rewrite (any_field_equals _ _ _ Hwf').
  rewrite bool_decide_eq_true_2 by done. cbv beta iota.
  fold rating.
  destruct (Z.ltb_spec rating 1); [done|].
  destruct (Z.gtb_spec rating 5); [done|]. lia.
Qed.

Lemma evaluate_lecturer_accepted :
  has_field "index" users →
  Some (JStr user_index) ∈ column "index" users →
  has_field "id" lecturers →
  Some (JStr lecturer_id) ∈ column "id" lecturers →
  (1 ≤ rating ≤ 5)%Z →
  evaluate_lecturer evaluation st
  = (Return {[ "message" := JStr "Evaluation submitted successfully" ]},
     <[EVALUATIONS_FILE := evaluations ++ [evaluation_record evaluation]]> st).
Proof.
  intros Hwf Hu Hwf' Hl Hr. unfold evaluate_lecturer. io_unfold.
  rewrite Husers, Hlecturers, Hevaluations, (any_field_equals _ _ _ Hwf).
  rewrite bool_decide_eq_true_2 by done. cbv beta iota.
  rewrite (any_field_equals _ _ _ Hwf').
  rewrite bool_decide_eq_true_2 by done. cbv beta iota.
  fold rating.
  destruct (Z.ltb_spec rating 1); [lia|].
  destruct (Z.gtb_spec rating 5); [lia|]. done.
Qed.
End evaluate_lecturer_equations.

(** ** What each endpoint can do to the files, on any state *)

(** Either the call raises and the files are untouched, or it returns and
    exactly one record has been appended to the endpoint's own file. *)

Lemma register_user_cases (user : UserCreate.t) (st : files) :
  (∃ e, register_user user st = (Raise e, st)) ∨
  (∃ users,
      st !! USERS_FILE = Some users ∧
      (Some (JStr (UserCreate.email user)) ∉ column "email" users) ∧
      (let user_index := format_04d (length users + 1) in
       register_user user st
       = (Return {[ "index" := JStr user_index;
                    "message" := JStr "User registered successfully" ]},
          <[USERS_FILE := users ++ [user_record user_index user]]> st))).
Proof.
  unfold register_user, generate_user_index. io_unfold.
  destruct (st !! USERS_FILE) as [users|] eqn:Hst; [|left; eauto].
  destruct (any _ users) as [[]|e] eqn:Hany; [left; eauto| |left; eauto].
  right. exists users. split; [done|]. split.
  - by apply any_field_equals_false.
  - by rewrite Hst.
Qed.

Lemma add_lecturer_cases (lecturer : LecturerCreate.t) (st : files) :
  (∃ e, add_lecturer lecturer st = (Raise e, st)) ∨
  (∃ lecturers,
      st !! LECTURERS_FILE = Some lecturers ∧
      (let lecturer_id := "L" +:+ format_04d (length lecturers + 1) in
       add_lecturer lecturer st
       = (Return {[ "lecturer_id" := JStr lecturer_id;
                    "message" := JStr "Lecturer added successfully" ]},
          <[LECTURERS_FILE :=
              lecturers ++ [lecturer_record lecturer_id lecturer]]> st))).
Proof.
  destruct (st !! LECTURERS_FILE) as [lecturers|] eqn:Hst.
  - right. exists lecturers. split; [done|]. by apply add_lecturer_appends.
  - left. exists (FileNotFoundError LECTURERS_FILE).
    unfold add_lecturer. io_unfold. by rewrite Hst.
Qed.

Lemma evaluate_lecturer_cases (evaluation : EvaluationCreate.t) (st : files) :
  (∃ e, evaluate_lecturer evaluation st = (Raise e, st)) ∨
  (∃ users lecturers evaluations,
      st !! USERS_FILE = Some users ∧
      st !! LECTURERS_FILE = Some lecturers ∧
      st !! EVALUATIONS_FILE = Some evaluations ∧
      Some (JStr (EvaluationCreate.user_index evaluation))
        ∈ column "index" users ∧
      Some (JStr (EvaluationCreate.lecturer_id evaluation))
        ∈ column "id" lecturers ∧
      (1 ≤ EvaluationCreate.rating evaluation ≤ 5)%Z ∧
      evaluate_lecturer evaluation st
      = (Return {[ "message" := JStr "Evaluation submitted successfully" ]},
         <[EVALUATIONS_FILE :=
             evaluations ++ [evaluation_record evaluation]]> st)).
Proof.
  unfold evaluate_lecturer. io_unfold.
  destruct (st !! USERS_FILE) as [users|] eqn:Hu; [|left; eauto].
  destruct (st !! LECTURERS_FILE) as [lecturers|] eqn:Hl; [|left; eauto].
  destruct (st !! EVALUATIONS_FILE) as [evaluations|] eqn:He; [|left; eauto].
  destruct (any _ users) as [[]|e] eqn:Hany; cbn [negb]; [|left; eauto..].
  destruct (any _ lecturers) as [[]|e] eqn:Hany'; cbn [negb]; [|left; eauto..].
  destruct (Z.ltb_spec (EvaluationCreate.rating evaluation) 1);
    cbn [orb]; [left; eauto|].
  destruct (Z.gtb_spec (EvaluationCreate.rating evaluation) 5);
    [left; eauto|].
  right. exists users, lecturers, evaluations.
  repeat split; try done; try lia; by apply any_field_equals_true.
Qed.

Lemma list_lecturers_pure (st : files) : (list_lecturers st).2 = st.
Proof. unfold list_lecturers. io_unfold. by destruct (st !! LECTURERS_FILE). Qed.

Lemma get_evaluations_pure (st : files) : (get_evaluations st).2 = st.
Proof. unfold get_evaluations. io_unfold. by destruct (st !! EVALUATIONS_FILE). Qed.

(** ** The scenario, evaluated *)

Lemma initial_files :
  initial !! USERS_FILE = Some []
  ∧ initial !! LECTURERS_FILE = Some []
  ∧ initial !! EVALUATIONS_FILE = Some [].
Proof. by vm_compute. Qed.

Lemma sample_files :
  sample !! USERS_FILE
    = Some [user_record "0001" alice; user_record "0002" bob]
  ∧ sample !! LECTURERS_FILE = Some [lecturer_record "L0001" dr_x]
  ∧ sample !! EVALUATIONS_FILE = Some [evaluation_record praise].
Proof. by vm_compute. Qed.

Example scenario_log :
  (serve scenario initial).1
  = [(RegisterUser alice, Return (Object (user_registered "0001")));
     (RegisterUser bob, Return (Object (user_registered "0002")));
     (AddLecturer dr_x, Return (Object (lecturer_added "L0001")));
     (SubmitEvaluation praise, Return (Object evaluation_submitted))].
Proof. by vm_compute. Qed.

(** ** Registration and duplicate e-mail addresses *)

(** C3: on a users collection whose records all carry an e-mail address,
    registering a candidate whose address equals a stored one (exact string
    equality) raises DuplicateEntity and leaves every file as it was, so the
    users collection and its length are unchanged; a candidate whose address
    is not stored is registered: the call returns and the users collection
    has grown by exactly the new record. *)
Theorem register_user_duplicate_or_fresh
    (user : UserCreate.t) (st : files) (users : list dict) :
  st !! USERS_FILE = Some users →
  has_field "email" users →
  (Some (JStr (UserCreate.email user)) ∈ column "email" users →
     register_user user st = (Raise DuplicateEntity, st)
     ∧ (register_user user st).2 !! USERS_FILE = Some users)
  ∧ (Some (JStr (UserCreate.email user)) ∉ column "email" users →
     let user_index := format_04d (length users + 1) in
     register_user user st
     = (Return (user_registered user_index),
        <[USERS_FILE := users ++ [user_record user_index user]]> st)).
Proof.
  intros Hst Hwf. split.
  - intros Hdup. rewrite (register_user_duplicate _ _ _ Hst Hwf Hdup).
    by split.
  - intros Hfresh. by apply register_user_fresh.
Qed.

Lemma register_user_duplicate_or_fresh_witness :
  register_user alice sample = (Raise DuplicateEntity, sample)
  ∧ register_user (UserCreate.mk "Alice" "A@x.com") sample
    = (Return (user_registered "0003"),
       <[USERS_FILE := [user_record "0001" alice; user_record "0002" bob;
                        user_record "0003" (UserCreate.mk "Alice" "A@x.com")]]>
         sample).
Proof.
  pose proof sample_files as (Hu & _ & _).
  assert (Hwf : has_field "email"
                  [user_record "0001" alice; user_record "0002" bob])
    by (apply (bool_decide_unpack _); by vm_compute).
  split.
  - apply (register_user_duplicate_or_fresh alice sample _ Hu Hwf).
    apply (bool_decide_unpack _). by vm_compute.
  - apply (register_user_duplicate_or_fresh
             (UserCreate.mk "Alice" "A@x.com") sample _ Hu Hwf).
    apply (bool_decide_unpack _). by vm_compute.
Defined.

(** ** Submitting an evaluation: the three checks *)

Lemma sample_collections :
  collections sample
    [user_record "0001" alice; user_record "0002" bob]
    [lecturer_record "L0001" dr_x]
    [evaluation_record praise].
Proof.
  pose proof sample_files as (Hu & Hl & He).
  split; [done..| |]; apply (bool_decide_unpack _); by vm_compute.
Qed.

Lemma evaluate_lecturer_first_failure (evaluation : EvaluationCreate.t)
    (st : files) (users lecturers evaluations : list dict) :
  collections st users lecturers evaluations →
  evaluate_lecturer evaluation st
  = match first_failure_user_first evaluation users lecturers with
    | Some e => (Raise e, st)
    | None =>
        (Return evaluation_submitted,
         <[EVALUATIONS_FILE :=
             evaluations ++ [evaluation_record evaluation]]> st)
    end.
Proof.
  intros [Hu Hl He Hwf Hwf'].
  unfold first_failure_user_first, user_exists, lecturer_exists,
    rating_in_range.
  case_bool_decide as Huser; cbn [negb];
    [|by eapply evaluate_lecturer_user_not_found].
  case_bool_decide as Hlect; cbn [negb];
    [|by eapply evaluate_lecturer_lecturer_not_found].
  case_bool_decide as Hrating; cbn [negb].
  - by eapply evaluate_lecturer_accepted.
  - eapply evaluate_lecturer_rating_out_of_range; eauto. lia.
Qed.

(** C4: when the three collections exist, a request whose [user_index] is the
    index of no stored user raises NotFound (404, user not found), and a
    request whose [lecturer_id] is the id of no stored lecturer raises
    NotFound (404); in both cases every file is left as it was, so nothing
    is appended to the evaluations collection. *)
Theorem evaluate_lecturer_not_found (evaluation : EvaluationCreate.t)
    (st : files) (users lecturers evaluations : list dict) :
  collections st users lecturers evaluations →
  (Some (JStr (EvaluationCreate.user_index evaluation))
     ∉ column "index" users →
   evaluate_lecturer evaluation st = (Raise UserNotFound, st)
   ∧ (evaluate_lecturer evaluation st).2 !! EVALUATIONS_FILE
     = Some evaluations)
  ∧ (Some (JStr (EvaluationCreate.lecturer_id evaluation))
       ∉ column "id" lecturers →
     (∃ e, NotFound e ∧ evaluate_lecturer evaluation st = (Raise e, st))
     ∧ (evaluate_lecturer evaluation st).2 !! EVALUATIONS_FILE
       = Some evaluations).
Proof.
  intros Hst. rewrite (evaluate_lecturer_first_failure _ _ _ _ _ Hst).
  pose proof (evaluations_stored _ _ _ _ Hst) as He.
  unfold first_failure_user_first, user_exists, lecturer_exists. split.
  - intros Hno. rewrite (bool_decide_eq_false_2 _ Hno). by cbn.
  - intros Hno. rewrite (bool_decide_eq_false_2 _ Hno).
    case_bool_decide; cbn [negb]; (split; [|done]).
    + exists LecturerNotFound. split; [by right | done].
    + exists UserNotFound. split; [by left | done].
Qed.

Lemma evaluate_lecturer_not_found_witness :
  evaluate_lecturer (EvaluationCreate.mk "0003" "L0001" 5 None) sample
  = (Raise UserNotFound, sample)
  ∧ ∃ e, NotFound e
         ∧ evaluate_lecturer (EvaluationCreate.mk "0001" "L0002" 5 None) sample
           = (Raise e, sample).
Proof.
  split.
  - apply (evaluate_lecturer_not_found
             (EvaluationCreate.mk "0003" "L0001" 5 None)
             sample _ _ _ sample_collections).
    apply (bool_decide_unpack _). by vm_compute.
  - apply (evaluate_lecturer_not_found
             (EvaluationCreate.mk "0001" "L0002" 5 None)
             sample _ _ _ sample_collections).
    apply (bool_decide_unpack _). by vm_compute.
Defined.

(** C5: for a request whose user and lecturer both exist, rating 0 and
    rating 6 raise OutOfRange and leave the files as they were, rating 1 and
    rating 5 are accepted and the evaluation is appended; more generally the
    request is accepted exactly when 1 <= rating <= 5. *)
Theorem evaluate_lecturer_rating_bounds
    (user_index lecturer_id : string) (comments : option string)
    (st : files) (users lecturers evaluations : list dict) :
  collections st users lecturers evaluations →
  Some (JStr user_index) ∈ column "index" users →
  Some (JStr lecturer_id) ∈ column "id" lecturers →
  let request rating :=
    EvaluationCreate.mk user_index lecturer_id rating comments in
  let accepted rating :=
    evaluate_lecturer (request rating) st
    = (Return evaluation_submitted,
       <[EVALUATIONS_FILE :=
           evaluations ++ [evaluation_record (request rating)]]> st) in
  let rejected rating :=
    evaluate_lecturer (request rating) st = (Raise OutOfRange, st) in
  rejected 0%Z ∧ rejected 6%Z ∧ accepted 1%Z ∧ accepted 5%Z
  ∧ ∀ rating : Z,
      ((1 ≤ rating ≤ 5)%Z → accepted rating)
      ∧ (¬ (1 ≤ rating ≤ 5)%Z → rejected rating).
Proof.
  intros Hst Hu Hl request accepted rejected.
  assert (Hall : ∀ rating : Z,
      ((1 ≤ rating ≤ 5)%Z → accepted rating)
      ∧ (¬ (1 ≤ rating ≤ 5)%Z → rejected rating)).
  { intros rating. unfold accepted, rejected.
    rewrite (evaluate_lecturer_first_failure _ _ _ _ _ Hst).
    unfold first_failure_user_first, user_exists, lecturer_exists,
      rating_in_range.
    cbn [request EvaluationCreate.user_index EvaluationCreate.lecturer_id
         EvaluationCreate.rating].
    rewrite (bool_decide_eq_true_2 _ Hu), (bool_decide_eq_true_2 _ Hl).
    cbn [negb]. split; intros Hr.
    - by rewrite (bool_decide_eq_true_2 _ Hr).
    - by rewrite (bool_decide_eq_false_2 _ Hr). }
  repeat split; try apply Hall; lia.
Qed.

Lemma evaluate_lecturer_rating_bounds_witness :
  evaluate_lecturer (EvaluationCreate.mk "0002" "L0001" 0 None) sample
  = (Raise OutOfRange, sample)
  ∧ evaluate_lecturer (EvaluationCreate.mk "0002" "L0001" 6 None) sample
    = (Raise OutOfRange, sample)
  ∧ evaluate_lecturer (EvaluationCreate.mk "0002" "L0001" 1 None) sample
    = (Return evaluation_submitted,
       <[EVALUATIONS_FILE :=
           [evaluation_record praise;
            evaluation_record (EvaluationCreate.mk "0002" "L0001" 1 None)]]>
         sample)
  ∧ evaluate_lecturer (EvaluationCreate.mk "0002" "L0001" 5 None) sample
    = (Return evaluation_submitted,
       <[EVALUATIONS_FILE :=
           [evaluation_record praise;
            evaluation_record (EvaluationCreate.mk "0002" "L0001" 5 None)]]>
         sample).
Proof.
  assert (Hu : Some (JStr "0002")
               ∈ column "index"
                   [user_record "0001" alice; user_record "0002" bob])
    by (apply (bool_decide_unpack _); by vm_compute).
  assert (Hl : Some (JStr "L0001")
               ∈ column "id" [lecturer_record "L0001" dr_x])
    by (apply (bool_decide_unpack _); by vm_compute).
  destruct (evaluate_lecturer_rating_bounds "0002" "L0001" None sample
              _ _ _ sample_collections Hu Hl)
    as (H0 & H6 & H1 & H5 & _).
  repeat split; assumption.
Defined.

(** ** The order of the checks *)

Lemma reports_rating_first_counterexample : ¬ reports_rating_first.
Proof.
  intros Hclaim.
  specialize (Hclaim (EvaluationCreate.mk "0003" "L0001" 0 None) sample
                _ _ _ OutOfRange sample_collections).
  assert (Hcode :
    (evaluate_lecturer (EvaluationCreate.mk "0003" "L0001" 0 None) sample).1
    = Raise UserNotFound) by (by vm_compute).
  rewrite Hcode in Hclaim.
  discriminate Hclaim; by vm_compute.
Qed.

(** C6 (amended): when the three collections exist, a request that fails
    several of the three checks is answered with the first failure in the
    order user existence, lecturer existence, rating range; in particular
    every request with both an out-of-range rating and a nonexistent
    [user_index] is answered NotFound (user not found), not OutOfRange.  In
    every case the files are left as they were. *)
Theorem evaluate_lecturer_reports_user_first
    (evaluation : EvaluationCreate.t)
    (st : files) (users lecturers evaluations : list dict) :
  collections st users lecturers evaluations →
  (∀ e, (2 ≤ failing_checks evaluation users lecturers)%nat →
        first_failure_user_first evaluation users lecturers = Some e →
        evaluate_lecturer evaluation st = (Raise e, st))
  ∧ (rating_in_range (EvaluationCreate.rating evaluation) = false →
     user_exists (EvaluationCreate.user_index evaluation) users = false →
     evaluate_lecturer evaluation st = (Raise UserNotFound, st)
     ∧ UserNotFound ≠ OutOfRange).
Proof.
  intros Hst. rewrite (evaluate_lecturer_first_failure _ _ _ _ _ Hst). split.
  - intros e _ Hfirst. by rewrite Hfirst.
  - intros _ Huser. unfold first_failure_user_first. rewrite Huser.
    by cbn.
Qed.

Lemma evaluate_lecturer_reports_user_first_witness :
  evaluate_lecturer (EvaluationCreate.mk "0003" "L0001" 0 None) sample
  = (Raise UserNotFound, sample)
  ∧ evaluate_lecturer (EvaluationCreate.mk "0001" "L0002" 6 None) sample
    = (Raise LecturerNotFound, sample).
Proof.
  split.
  - apply (evaluate_lecturer_reports_user_first
             (EvaluationCreate.mk "0003" "L0001" 0 None)
             sample _ _ _ sample_collections); by vm_compute.
  - apply (evaluate_lecturer_reports_user_first
             (EvaluationCreate.mk "0001" "L0002" 6 None)
             sample _ _ _ sample_collections); by vm_compute.
Defined.

(** ** Adding a lecturer *)

Lemma accepts_exactly_nonempty_counterexample : ¬ accepts_exactly_nonempty.
Proof.
  intros Hclaim.
  destruct (Hclaim (LecturerCreate.mk "" "") initial [])
    as [Hnonempty _]; [by vm_compute|].
  destruct Hnonempty as [Hname _]; [|done].
  eexists _, _. by vm_compute.
Qed.

(** C7 (amended): whenever the lecturers collection exists, [add_lecturer]
    returns for every name and department, the empty string included: there
    is no failure mode and no uniqueness check.  It assigns the id
    ["L%04d" % (count + 1)], appends the record built from that id, the name
    and the department at the end of the collection, writes the collection
    back and returns the id.  Adding the very same lecturer again succeeds
    too and stores a second record under the next id. *)
Theorem add_lecturer_always_succeeds
    (lecturer : LecturerCreate.t) (st : files) (lecturers : list dict) :
  st !! LECTURERS_FILE = Some lecturers →
  let lecturer_id := "L" +:+ format_04d (length lecturers + 1) in
  let lecturer_id' := "L" +:+ format_04d (length lecturers + 2) in
  let st' :=
    <[LECTURERS_FILE := lecturers ++ [lecturer_record lecturer_id lecturer]]>
      st in
  add_lecturer lecturer st = (Return (lecturer_added lecturer_id), st')
  ∧ add_lecturer lecturer st'
    = (Return (lecturer_added lecturer_id'),
       <[LECTURERS_FILE :=
           lecturers ++ [lecturer_record lecturer_id lecturer;
                         lecturer_record lecturer_id' lecturer]]> st).
Proof.
  intros Hst lecturer_id lecturer_id' st'. split.
  - by apply add_lecturer_appends.
  - rewrite (add_lecturer_appends lecturer st'
               (lecturers ++ [lecturer_record lecturer_id lecturer]))
      by apply lookup_insert_eq.
    unfold st'. rewrite insert_insert_eq, <- app_assoc, length_app.
    cbn [length app]. unfold lecturer_id'.
    by replace (length lecturers + 1 + 1) with (length lecturers + 2) by lia.
Qed.

Lemma add_lecturer_always_succeeds_witness :
  add_lecturer (LecturerCreate.mk "" "") sample
  = (Return (lecturer_added "L0002"),
     <[LECTURERS_FILE :=
         [lecturer_record "L0001" dr_x;
          lecturer_record "L0002" (LecturerCreate.mk "" "")]]> sample)
  ∧ add_lecturer dr_x sample
    = (Return (lecturer_added "L0002"),
       <[LECTURERS_FILE :=
           [lecturer_record "L0001" dr_x; lecturer_record "L0002" dr_x]]>
         sample).
Proof.
  pose proof sample_files as (_ & Hl & _). split.
  - apply (add_lecturer_always_succeeds (LecturerCreate.mk "" "") sample
             _ Hl).
  - apply (add_lecturer_always_succeeds dr_x sample _ Hl).
Defined.

(** ** Frame properties *)

Lemma handle_raise_or_write (st : files) (path : string) (A : Type)
    (m : io A) (own : string) :
  ((∃ e, m st = (Raise e, st))
   ∨ (∃ a data, m st = (Return a, <[own := data]> st))) →
  path ≠ own →
  (m st).2 !! path = st !! path.
Proof.
  intros [[e ->]|(a & data & ->)] Hne; [done|].
  by apply lookup_insert_ne.
Qed.

(** C9: every endpoint writes at most its own file.  [register_user] leaves
    the lecturers and evaluations files as they were, [add_lecturer] the
    users and evaluations files, [evaluate_lecturer] the users and lecturers
    files (indeed every file but the endpoint's own), and the two list
    endpoints leave the whole state unchanged.  This holds on every state
    and whether the call returns or raises. *)
Theorem endpoints_frame (st : files) :
  (∀ user,
     let st' := (register_user user st).2 in
     st' !! LECTURERS_FILE = st !! LECTURERS_FILE
     ∧ st' !! EVALUATIONS_FILE = st !! EVALUATIONS_FILE
     ∧ ∀ path, path ≠ USERS_FILE → st' !! path = st !! path)
  ∧ (∀ lecturer,
     let st' := (add_lecturer lecturer st).2 in
     st' !! USERS_FILE = st !! USERS_FILE
     ∧ st' !! EVALUATIONS_FILE = st !! EVALUATIONS_FILE
     ∧ ∀ path, path ≠ LECTURERS_FILE → st' !! path = st !! path)
  ∧ (∀ evaluation,
     let st' := (evaluate_lecturer evaluation st).2 in
     st' !! USERS_FILE = st !! USERS_FILE
     ∧ st' !! LECTURERS_FILE = st !! LECTURERS_FILE
     ∧ ∀ path, path ≠ EVALUATIONS_FILE → st' !! path = st !! path)
  ∧ (list_lecturers st).2 = st
  ∧ (get_evaluations st).2 = st.
Proof.
  split; [|split; [|split; [|split]]].
  - intros user st'.
    assert (Hframe : ∀ path, path ≠ USERS_FILE → st' !! path = st !! path).
    { intros path. apply handle_raise_or_write.
      destruct (register_user_cases user st) as [?|(users & _ & _ & ?)];
        eauto. }
    split; [|split]; by try apply Hframe.
  - intros lecturer st'.
    assert (Hframe : ∀ path, path ≠ LECTURERS_FILE → st' !! path = st !! path).
    { intros path. apply handle_raise_or_write.
      destruct (add_lecturer_cases lecturer st) as [?|(lecturers & _ & ?)];
        eauto. }
    split; [|split]; by try apply Hframe.
  - intros evaluation st'.
    assert (Hframe : ∀ path, path ≠ EVALUATIONS_FILE → st' !! path = st !! path).
    { intros path. apply handle_raise_or_write.
      destruct (evaluate_lecturer_cases evaluation st)
        as [?|(users & lecturers & evaluations & _ & _ & _ & _ & _ & _ & ?)];
        eauto. }
    split; [|split]; by try apply Hframe.
  - apply list_lecturers_pure.
  - apply get_evaluations_pure.
Qed.

(** ** The stored records, field by field *)

Lemma user_record_fields (user_index : string) (user : UserCreate.t) :
  user_record user_index user !! "index" = Some (JStr user_index)
  ∧ user_record user_index user !! "name" = Some (JStr (UserCreate.name user))
  ∧ user_record user_index user !! "email"
    = Some (JStr (UserCreate.email user)).
Proof. by vm_compute. Qed.

Lemma lecturer_record_fields (lecturer_id : string)
    (lecturer : LecturerCreate.t) :
  lecturer_record lecturer_id lecturer !! "id" = Some (JStr lecturer_id)
  ∧ lecturer_record lecturer_id lecturer !! "name"
    = Some (JStr (LecturerCreate.name lecturer))
  ∧ lecturer_record lecturer_id lecturer !! "department"
    = Some (JStr (LecturerCreate.department lecturer)).
Proof. by vm_compute. Qed.

Lemma evaluation_record_fields (evaluation : EvaluationCreate.t) :
  evaluation_record evaluation !! "user_index"
  = Some (JStr (EvaluationCreate.user_index evaluation))
  ∧ evaluation_record evaluation !! "lecturer_id"
    = Some (JStr (EvaluationCreate.lecturer_id evaluation))
  ∧ evaluation_record evaluation !! "rating"
    = Some (JInt (EvaluationCreate.rating evaluation))
  ∧ evaluation_record evaluation !! "comments"
    = Some (json_of_opt_str (EvaluationCreate.comments evaluation)).
Proof. by vm_compute. Qed.

(** ** Evaluations without comments *)

(** C10: a request built without a [comments] member gets the default
    [None]; with an existing user, an existing lecturer and a rating in
    [1,5] it is accepted, the record appended to the evaluations collection
    has the key ["comments"] bound to [null], and [get_evaluations] then
    returns the collection ending with that record, the ["comments"] key
    present and [null]. *)
Theorem evaluate_lecturer_omitted_comments
    (user_index lecturer_id : string) (rating : Z)
    (st : files) (users lecturers evaluations : list dict) :
  collections st users lecturers evaluations →
  Some (JStr user_index) ∈ column "index" users →
  Some (JStr lecturer_id) ∈ column "id" lecturers →
  (1 ≤ rating ≤ 5)%Z →
  let evaluation := EvaluationCreate.init user_index lecturer_id rating None in
  EvaluationCreate.comments evaluation = None
  ∧ ∃ (st' : files) (stored : dict),
      evaluate_lecturer evaluation st = (Return evaluation_submitted, st')
      ∧ st' !! EVALUATIONS_FILE = Some (evaluations ++ [stored])
      ∧ get_evaluations st' = (Return (evaluations ++ [stored]), st')
      ∧ stored !! "comments" = Some JNull
      ∧ stored !! "user_index" = Some (JStr user_index)
      ∧ stored !! "lecturer_id" = Some (JStr lecturer_id)
      ∧ stored !! "rating" = Some (JInt rating).
Proof.
  intros Hst Hu Hl Hr evaluation. split; [done|].
  exists (<[EVALUATIONS_FILE :=
             evaluations ++ [evaluation_record evaluation]]> st),
    (evaluation_record evaluation).
  split; [|split; [|split]].
  - destruct Hst. by eapply evaluate_lecturer_accepted.
  - apply lookup_insert_eq.
  - unfold get_evaluations. io_unfold. by rewrite lookup_insert_eq.
  - destruct (evaluation_record_fields evaluation) as (? & ? & ? & ?).
    by repeat split.
Qed.

Lemma evaluate_lecturer_omitted_comments_witness :
  ∃ (st' : files) (stored : dict),
    evaluate_lecturer (EvaluationCreate.init "0002" "L0001" 3 None) sample
    = (Return evaluation_submitted, st')
    ∧ get_evaluations st'
      = (Return ([evaluation_record praise] ++ [stored]), st')
    ∧ stored !! "comments" = Some JNull.
Proof.
  assert (Hu : Some (JStr "0002")
               ∈ column "index"
                   [user_record "0001" alice; user_record "0002" bob])
    by (apply (bool_decide_unpack _); by vm_compute).
  assert (Hl : Some (JStr "L0001")
               ∈ column "id" [lecturer_record "L0001" dr_x])
    by (apply (bool_decide_unpack _); by vm_compute).
  assert (Hr : (1 ≤ 3 ≤ 5)%Z) by lia.
  destruct (evaluate_lecturer_omitted_comments "0002" "L0001" 3 sample
              _ _ _ sample_collections Hu Hl Hr)
    as (_ & st' & stored & Hacc & _ & Hget & Hnull & _).
  exists st', stored. by repeat split.
Defined.

(** ** Every handler call is a step *)

Lemma handle_step (r : request) (st : files) :
  step st r (handle r st).1 (handle r st).2.
Proof.
  destruct r as [user|lecturer| |evaluation| |]; unfold handle, fmap, io_fmap.
  - destruct (register_user_cases user st)
      as [[e ->]|(users & Hu & Hfresh & ->)]; by constructor.
  - destruct (add_lecturer_cases lecturer st)
      as [[e ->]|(lecturers & Hl & ->)]; by constructor.
  - unfold list_lecturers. io_unfold.
    destruct (st !! LECTURERS_FILE) eqn:Hl; cbn [fst snd]; by constructor.
  - destruct (evaluate_lecturer_cases evaluation st)
      as [[e ->]|(users & lecturers & evaluations
                  & Hu & Hl & He & Huser & Hlect & Hr & ->)];
      by econstructor.
  - unfold get_evaluations. io_unfold.
    destruct (st !! EVALUATIONS_FILE) eqn:He; cbn [fst snd]; by constructor.
  - constructor.
Qed.

Lemma serve_cons (r : request) (reqs : list request) (st : files) :
  serve (r :: reqs) st
  = (((r, (handle r st).1) :: (serve reqs (handle r st).2).1),
     (serve reqs (handle r st).2).2).
Proof.
  cbn [serve]. destruct (handle r st) as [o st']. cbn [fst snd].
  by destruct (serve reqs st') as [log st''].
Qed.

Lemma serve_steps (reqs : list request) (st : files) :
  steps st (serve reqs st).1 (serve reqs st).2.
Proof.
  revert st. induction reqs as [|r reqs IH]; intros st; [constructor|].
  rewrite serve_cons. cbn [fst snd].
  econstructor; [apply handle_step | apply IH].
Qed.

Lemma serve_log_requests (reqs : list request) (st : files) :
  (serve reqs st).1.*1 = reqs.
Proof.
  revert st. induction reqs as [|r reqs IH]; intros st; [done|].
  rewrite serve_cons. cbn. by rewrite IH.
Qed.

(** ** Sequential identifiers *)

Example user_indices_3 :
  user_indices 3 = [Some (JStr "0001"); Some (JStr "0002"); Some (JStr "0003")].
Proof. reflexivity. Qed.

Example lecturer_ids_2 :
  lecturer_ids 2 = [Some (JStr "L0001"); Some (JStr "L0002")].
Proof. reflexivity. Qed.

Lemma steps_users (st st' : files) log (users : list dict) :
  steps st log st' →
  st !! USERS_FILE = Some users →
  ∃ new,
    st' !! USERS_FILE = Some (users ++ new)
    ∧ length new = registrations log
    ∧ column "index" new
      = user_indices_from (length users + 1) (registrations log)
    ∧ returned_indices log
      = user_indices_from (length users + 1) (registrations log).
Proof.
  intros Hsteps. revert users.
  induction Hsteps as [st|st st' st'' r o log Hstep _ IH]; intros users Hu.
  { exists []. by rewrite app_nil_r. }
  inversion Hstep as
    [r' e| |ls Hl|es He|user us Hus Hfresh|lecturer ls Hl
    |ev us ls es Hus Hl He Huser Hlect Hr]; subst.
  - destruct (IH users Hu) as (new & ? & ? & ? & ?).
    exists new. by destruct r.
  - by destruct (IH users Hu) as (new & ? & ? & ? & ?); exists new.
  - by destruct (IH users Hu) as (new & ? & ? & ? & ?); exists new.
  - by destruct (IH users Hu) as (new & ? & ? & ? & ?); exists new.
  - assert (us = users) as -> by congruence.
    destruct (IH (users ++ [user_record (format_04d (length users + 1)) user]))
      as (new & Hst & Hlen & Hcol & Hret); [apply lookup_insert_eq|].
    rewrite length_app in Hcol, Hret. cbn [length] in Hcol, Hret.
    exists (user_record (format_04d (length users + 1)) user :: new).
    unfold registrations, returned_indices in *.
    cbn [List.filter registered length fmap list_fmap].
    rewrite <- app_assoc in Hst. split; [done|]. split; [by f_equal|].
    unfold user_indices_from in *. cbn [seq fmap list_fmap column].
    replace (S (length users + 1)) with (length users + 1 + 1) by lia.
    split; f_equal; done.
  - destruct (IH users) as (new & ? & ? & ? & ?);
      [by rewrite lookup_insert_ne|by exists new].
  - destruct (IH users) as (new & ? & ? & ? & ?);
      [by rewrite lookup_insert_ne|by exists new].
Qed.

Lemma steps_lecturers (st st' : files) log (lecturers : list dict) :
  steps st log st' →
  st !! LECTURERS_FILE = Some lecturers →
  ∃ new,
    st' !! LECTURERS_FILE = Some (lecturers ++ new)
    ∧ length new = additions log
    ∧ column "id" new
      = lecturer_ids_from (length lecturers + 1) (additions log)
    ∧ returned_ids log
      = lecturer_ids_from (length lecturers + 1) (additions log).
Proof.
  intros Hsteps. revert lecturers.
  induction Hsteps as [st|st st' st'' r o log Hstep _ IH];
    intros lecturers Hl.
  { exists []. by rewrite app_nil_r. }
  inversion Hstep as
    [r' e| |ls Hls|es He|user us Hus Hfresh|lecturer ls Hls
    |ev us ls es Hus Hls He Huser Hlect Hr]; subst.
  - destruct (IH lecturers Hl) as (new & ? & ? & ? & ?).
    exists new. by destruct r.
  - by destruct (IH lecturers Hl) as (new & ? & ? & ? & ?); exists new.
  - by destruct (IH lecturers Hl) as (new & ? & ? & ? & ?); exists new.
  - by destruct (IH lecturers Hl) as (new & ? & ? & ? & ?); exists new.
  - destruct (IH lecturers) as (new & ? & ? & ? & ?);
      [by rewrite lookup_insert_ne|by exists new].
  - assert (ls = lecturers) as -> by congruence.
    set (lecturer_id := "L" +:+ format_04d (length lecturers + 1)) in *.
    destruct (IH (lecturers ++ [lecturer_record lecturer_id lecturer]))
      as (new & Hst & Hlen & Hcol & Hret); [apply lookup_insert_eq|].
    rewrite length_app in Hcol, Hret. cbn [length] in Hcol, Hret.
    exists (lecturer_record lecturer_id lecturer :: new).
    unfold additions, returned_ids in *.
    cbn [List.filter lecturer_was_added length fmap list_fmap].
    rewrite <- app_assoc in Hst. split; [done|]. split; [by f_equal|].
    unfold lecturer_ids_from in *. cbn [seq fmap list_fmap column].
    replace (S (length lecturers + 1)) with (length lecturers + 1 + 1) by lia.
    split; f_equal; done.
  - destruct (IH lecturers) as (new & ? & ? & ? & ?);
      [by rewrite lookup_insert_ne|by exists new].
Qed.

(** C2: serve any sequence of requests, starting with an empty users
    collection: the users collection then holds as many records as there
    were successful registrations, say N; their indices, in storage order,
    are "0001", "0002", ..., "%04d" % N, and these are also the indices the
    successful registrations returned, in the order of the calls.  Likewise,
    starting with an empty lecturers collection, the stored lecturer ids and
    the returned ones are "L0001", ..., "L%04d" % N in order, N being the
    number of successful additions. *)
Theorem sequential_identifiers (reqs : list request) (st : files) :
  let log := (serve reqs st).1 in
  let st' := (serve reqs st).2 in
  (st !! USERS_FILE = Some [] →
   ∃ users,
     st' !! USERS_FILE = Some users
     ∧ length users = registrations log
     ∧ column "index" users = user_indices (registrations log)
     ∧ returned_indices log = user_indices (registrations log))
  ∧ (st !! LECTURERS_FILE = Some [] →
     ∃ lecturers,
       st' !! LECTURERS_FILE = Some lecturers
       ∧ length lecturers = additions log
       ∧ column "id" lecturers = lecturer_ids (additions log)
       ∧ returned_ids log = lecturer_ids (additions log)).
Proof.
  intros log st'. pose proof (serve_steps reqs st) as Hsteps. split.
  - intros Hu. by apply (steps_users _ _ _ [] Hsteps).
  - intros Hl. by apply (steps_lecturers _ _ _ [] Hsteps).
Qed.

Lemma sequential_identifiers_witness :
  let reqs := [RegisterUser alice; AddLecturer dr_x; RegisterUser alice;
               RegisterUser bob; AddLecturer dr_x; ListLecturers] in
  registrations (serve reqs initial).1 = 2
  ∧ additions (serve reqs initial).1 = 2
  ∧ (∃ users,
       (serve reqs initial).2 !! USERS_FILE = Some users
       ∧ column "index" users = [Some (JStr "0001"); Some (JStr "0002")])
  ∧ (∃ lecturers,
       (serve reqs initial).2 !! LECTURERS_FILE = Some lecturers
       ∧ column "id" lecturers = [Some (JStr "L0001"); Some (JStr "L0002")]).
Proof.
  intros reqs.
  assert (Hn : registrations (serve reqs initial).1 = 2) by (by vm_compute).
  assert (Hm : additions (serve reqs initial).1 = 2) by (by vm_compute).
  pose proof initial_files as (Hu0 & Hl0 & _).
  destruct (sequential_identifiers reqs initial) as [Husers Hlects].
  destruct (Husers Hu0) as (users & Hu & _ & Hcol & _).
  destruct (Hlects Hl0) as (lecturers & Hl & _ & Hcol' & _).
  rewrite Hn in Hcol. rewrite Hm in Hcol'.
  split; [done|]. split; [done|]. split; eauto.
Defined.

(** ** Invariants *)

Lemma unique_snoc key (rows : list dict) (row : dict) (v : json) :
  unique key rows →
  row !! key = Some v →
  Some v ∉ column key rows →
  unique key (rows ++ [row]).
Proof.
  intros [Hwf Hnodup] Hv Hfresh. split.
  - apply has_field_app. split; [done|]. by repeat constructor.
  - rewrite column_app. apply NoDup_app. split; [done|]. split.
    + intros x Hx. cbn. rewrite Hv. rewrite list_elem_of_singleton.
      by intros ->.
    + apply NoDup_singleton.
Qed.

Lemma evaluation_valid_mono (users users' lecturers lecturers' : list dict)
    (evaluation : dict) :
  evaluation_valid users lecturers evaluation →
  evaluation_valid (users ++ users') (lecturers ++ lecturers') evaluation.
Proof.
  intros ((ui & ? & ?) & (li & ? & ?) & Hr). split; [|split; [|done]].
  - exists ui. split; [done|]. rewrite column_app, elem_of_app. by left.
  - exists li. split; [done|]. rewrite column_app, elem_of_app. by left.
Qed.

Lemma step_emails_and_references (st st' : files) r o :
  step st r o st' →
  emails_and_references st →
  emails_and_references st'.
Proof.
  intros Hstep (users & lecturers & evaluations & Hu & Hl & He & Huniq & Hval).
  inversion Hstep as
    [r' e| |ls Hls|es Hes|user us Hus Hfresh|lecturer ls Hls
    |ev us ls es Hus Hls Hes Huser Hlect Hr]; subst;
    try (by exists users, lecturers, evaluations).
  - assert (us = users) as -> by congruence.
    exists (users ++ [user_record (format_04d (length users + 1)) user]),
      lecturers, evaluations.
    rewrite lookup_insert_eq, !lookup_insert_ne by done.
    split_and!; try done.
    + by eapply unique_snoc.
    + eapply Forall_impl; [exact Hval|]. intros ev Hev.
      rewrite <- (app_nil_r lecturers). by apply evaluation_valid_mono.
  - assert (ls = lecturers) as -> by congruence.
    eexists users, (lecturers ++ [_]), evaluations.
    rewrite lookup_insert_eq, !lookup_insert_ne by done.
    split_and!; try done.
    eapply Forall_impl; [exact Hval|]. intros ev Hev.
    rewrite <- (app_nil_r users). by apply evaluation_valid_mono.
  - assert (us = users) as -> by congruence.
    assert (ls = lecturers) as -> by congruence.
    assert (es = evaluations) as -> by congruence.
    exists users, lecturers, (evaluations ++ [evaluation_record ev]).
    rewrite lookup_insert_eq, !lookup_insert_ne by done.
    split_and!; try done.
    apply Forall_app. split; [done|]. constructor; [|done].
    destruct (evaluation_record_fields ev) as (Hf1 & Hf2 & Hf3 & _).
    split; [|split]; eauto.
Qed.

Lemma steps_emails_and_references (st st' : files) log :
  steps st log st' →
  emails_and_references st →
  emails_and_references st'.
Proof.
  induction 1 as [st|st st' st'' r o log Hstep _ IH]; [done|].
  intros Hinv. by eapply IH, step_emails_and_references.
Qed.

Lemma initial_emails_and_references : emails_and_references initial.
Proof.
  pose proof initial_files as (Hu & Hl & He).
  exists [], [], []. split_and!; try done.
  split; constructor.
Qed.

#[global] Instance user_index_json_inj :
  Inj (=) (=) (λ k, Some (JStr (format_04d k))).
Proof. intros n m Heq. apply (inj format_04d). congruence. Qed.

#[global] Instance lecturer_id_json_inj :
  Inj (=) (=) (λ k, Some (JStr ("L" +:+ format_04d k))).
Proof.
  intros n m Heq. apply (inj format_04d).
  assert (H : "L" +:+ format_04d n = "L" +:+ format_04d m) by congruence.
  by injection H.
Qed.

Lemma unique_of_column key (rows : list dict) (f : nat → option json)
    (start : nat) :
  Inj (=) (=) f →
  (∀ k, is_Some (f k)) →
  column key rows = f <$> seq start (length rows) →
  unique key rows.
Proof.
  intros Hinj Hsome Hcol. split.
  - unfold has_field. apply Forall_lookup. intros i row Hi.
    assert (Hlook : column key rows !! i = Some (row !! key))
      by (unfold column; by rewrite list_lookup_fmap, Hi).
    rewrite Hcol, list_lookup_fmap in Hlook.
    destruct (seq start (length rows) !! i) as [k|]; [|done].
    cbn in Hlook. injection Hlook as <-. apply Hsome.
  - rewrite Hcol. apply NoDup_fmap_2; [done|apply NoDup_seq].
Qed.

(** C1: serve any sequence of requests from the state in which the three
    collections are empty.  In the resulting state the three collections
    exist and: every user carries an index and no two users share one; every
    user carries an e-mail address and no two users share one; every
    lecturer carries an id and no two lecturers share one; every stored
    evaluation carries the index of a stored user, the id of a stored
    lecturer and an integer rating between 1 and 5. *)
Theorem served_state_consistent (reqs : list request) :
  consistent (serve reqs initial).2.
Proof.
  pose proof (serve_steps reqs initial) as Hsteps.
  pose proof initial_files as (Hu0 & Hl0 & _).
  destruct (steps_emails_and_references _ _ _ Hsteps
              initial_emails_and_references)
    as (users & lecturers & evaluations & Hu & Hl & He & Hemail & Hval).
  destruct (steps_users _ _ _ [] Hsteps Hu0)
    as (users' & Hu' & Hlen & Hcol & _).
  destruct (steps_lecturers _ _ _ [] Hsteps Hl0)
    as (lecturers' & Hl' & Hlen' & Hcol' & _).
  cbn [app] in Hu', Hl'.
  assert (users' = users) as -> by congruence.
  assert (lecturers' = lecturers) as -> by congruence.
  rewrite <- Hlen in Hcol. rewrite <- Hlen' in Hcol'.
  exists users, lecturers, evaluations. split_and!; try done.
  - apply (unique_of_column _ _ (λ k, Some (JStr (format_04d k))) 1);
      [apply _ | by eexists | exact Hcol].
  - apply (unique_of_column _ _ (λ k, Some (JStr ("L" +:+ format_04d k))) 1);
      [apply _ | by eexists | exact Hcol'].
Qed.

(** ** Round trip: what was created is what the list endpoints return *)

Lemma lecturer_added_id (lecturer_id : string) :
  lecturer_added lecturer_id !! "lecturer_id" = Some (JStr lecturer_id).
Proof. by vm_compute. Qed.

Lemma list_lecturers_returns (st : files) (lecturers : list dict) :
  st !! LECTURERS_FILE = Some lecturers →
  list_lecturers st = (Return lecturers, st).
Proof. intros Hl. unfold list_lecturers. io_unfold. by rewrite Hl. Qed.

Lemma get_evaluations_returns (st : files) (evaluations : list dict) :
  st !! EVALUATIONS_FILE = Some evaluations →
  get_evaluations st = (Return evaluations, st).
Proof. intros He. unfold get_evaluations. io_unfold. by rewrite He. Qed.

Lemma steps_created (st st' : files) log (lecturers evaluations : list dict) :
  steps st log st' →
  st !! LECTURERS_FILE = Some lecturers →
  st !! EVALUATIONS_FILE = Some evaluations →
  st' !! LECTURERS_FILE = Some (lecturers ++ created_lecturers log)
  ∧ st' !! EVALUATIONS_FILE = Some (evaluations ++ created_evaluations log)
  ∧ length (created_lecturers log) = additions log
  ∧ length (created_evaluations log) = submissions log.
Proof.
  intros Hsteps. revert lecturers evaluations.
  induction Hsteps as [st|st st' st'' r o log Hstep _ IH];
    intros lecturers evaluations Hl He.
  { by rewrite !app_nil_r. }
  unfold created_lecturers, created_evaluations, additions, submissions.
  inversion Hstep as
    [r' e| |ls Hls|es Hes|user us Hus Hfresh|lecturer ls Hls
    |ev us ls es Hus Hls Hes Huser Hlect Hr]; subst.
  - destruct (IH lecturers evaluations Hl He) as (? & ? & ? & ?).
    by destruct r.
  - by destruct (IH lecturers evaluations Hl He) as (? & ? & ? & ?).
  - by destruct (IH lecturers evaluations Hl He) as (? & ? & ? & ?).
  - by destruct (IH lecturers evaluations Hl He) as (? & ? & ? & ?).
  - destruct (IH lecturers evaluations) as (? & ? & ? & ?);
      by rewrite ?lookup_insert_ne.
  - assert (ls = lecturers) as -> by congruence.
    set (lecturer_id := "L" +:+ format_04d (length lecturers + 1)) in *.
    destruct (IH (lecturers ++ [lecturer_record lecturer_id lecturer])
                evaluations) as (Hl' & He' & Hlen & Hlen');
      [apply lookup_insert_eq | by rewrite lookup_insert_ne |].
    cbn [omap list_omap created_lecturer created_evaluation
         List.filter lecturer_was_added evaluation_was_submitted].
    rewrite lecturer_added_id. cbn [length app].
    rewrite <- app_assoc in Hl'. split_and!; try done. by f_equal.
  - assert (es = evaluations) as -> by congruence.
    destruct (IH lecturers (evaluations ++ [evaluation_record ev]))
      as (Hl' & He' & Hlen & Hlen');
      [by rewrite lookup_insert_ne | apply lookup_insert_eq |].
    cbn [omap list_omap created_lecturer created_evaluation
         List.filter lecturer_was_added evaluation_was_submitted].
    cbn [length app].
    rewrite <- app_assoc in He'. split_and!; try done. by f_equal.
Qed.

(** C8: serve any sequence of requests from a state holding a lecturers and
    an evaluations collection.  Afterwards [list_lecturers] returns the old
    lecturers followed by one record per successful addition, in the order
    of the calls, each made of the id the call returned and the name and
    department of its request; [get_evaluations] returns the old evaluations
    followed by one record per successful submission, in the order of the
    calls, each made of the four fields of its request.  No created record
    is missing: there are as many as successful calls.  Both list calls
    leave the state as it is. *)
Theorem created_records_are_listed (reqs : list request) (st : files)
    (lecturers evaluations : list dict) :
  st !! LECTURERS_FILE = Some lecturers →
  st !! EVALUATIONS_FILE = Some evaluations →
  let log := (serve reqs st).1 in
  let st' := (serve reqs st).2 in
  list_lecturers st' = (Return (lecturers ++ created_lecturers log), st')
  ∧ get_evaluations st'
    = (Return (evaluations ++ created_evaluations log), st')
  ∧ length (created_lecturers log) = additions log
  ∧ length (created_evaluations log) = submissions log.
Proof.
  intros Hl He log st'.
  destruct (steps_created _ _ _ _ _ (serve_steps reqs st) Hl He)
    as (Hl' & He' & Hlen & Hlen').
  split_and!; try done.
  - by apply list_lecturers_returns.
  - by apply get_evaluations_returns.
Qed.

Lemma created_records_are_listed_witness :
  let late : EvaluationCreate.t := EvaluationCreate.mk "0002" "L0002" 2 None in
  let reqs := [AddLecturer dr_x; SubmitEvaluation late;
               SubmitEvaluation (EvaluationCreate.mk "0002" "L0003" 2 None);
               ListLecturers] in
  let st' := (serve reqs sample).2 in
  list_lecturers st'
  = (Return [lecturer_record "L0001" dr_x; lecturer_record "L0002" dr_x], st')
  ∧ get_evaluations st'
    = (Return [evaluation_record praise; evaluation_record late], st').
Proof.
  intros late reqs st'.
  pose proof sample_files as (_ & Hl & He).
  destruct (created_records_are_listed reqs sample _ _ Hl He)
    as (Hlist & Hget & _ & _).
  split.
  - etrans; [exact Hlist|]. by vm_compute.
  - etrans; [exact Hget|]. by vm_compute.
Defined.

(** * Further properties of the code *)

(** ** Creating the collection files *)

Lemma ensure_files_exist_lookup (st : files) (path : string) :
  ensure_files_exist st !! path
  = match st !! path with
    | Some data => Some data
    | None =>
        if bool_decide
             (path ∈ [USERS_FILE; LECTURERS_FILE; EVALUATIONS_FILE])
        then Some []
        else None
    end.
Proof.
  unfold ensure_files_exist. cbn [foldl].
  assert (Hstep : ∀ (m : files) (file : string),
    (if decide (is_Some (m !! file)) then m else <[file := []]> m) !! path
    = match m !! path with
      | Some data => Some data
      | None => if decide (path = file) then Some [] else None
      end).
  { intros m file. destruct (decide (is_Some (m !! file))) as [Hin|Hout].
    - destruct (m !! path) eqn:Hp; [done|].
      destruct (decide (path = file)) as [->|]; [|done].
      rewrite Hp in Hin. by destruct Hin.
    - destruct (decide (path = file)) as [->|Hne].
      + rewrite lookup_insert_eq.
        destruct (m !! file) eqn:Hf; [|done]. destruct Hout. by eexists.
      + rewrite lookup_insert_ne by done. by destruct (m !! path). }
  rewrite !Hstep. destruct (st !! path) as [data|]; [done|].
  case_bool_decide as Hmem.
  - rewrite !elem_of_cons, elem_of_nil in Hmem.
    by destruct Hmem as [->|[->|[->|[]]]].
  - rewrite !elem_of_cons, elem_of_nil in Hmem.
    destruct (decide (path = EVALUATIONS_FILE)); [tauto|].
    destruct (decide (path = LECTURERS_FILE)); [tauto|].
    destruct (decide (path = USERS_FILE)); [tauto|done].
Qed.

(** [ensure_files_exist] creates each of the three collection files that is
    absent, holding the empty array; a file that exists keeps its contents,
    whatever they are; and no other path is created or touched. *)
Theorem ensure_files_exist_creates_missing_only (st : files) :
  (∀ path data,
     st !! path = Some data → ensure_files_exist st !! path = Some data)
  ∧ (∀ path,
       path ∈ [USERS_FILE; LECTURERS_FILE; EVALUATIONS_FILE] →
       st !! path = None → ensure_files_exist st !! path = Some [])
  ∧ (∀ path,
       path ∉ [USERS_FILE; LECTURERS_FILE; EVALUATIONS_FILE] →
       ensure_files_exist st !! path = st !! path).
Proof.
  split_and!.
  - intros path data Hp. by rewrite ensure_files_exist_lookup, Hp.
  - intros path Hin Hp.
    by rewrite ensure_files_exist_lookup, Hp, bool_decide_eq_true_2.
  - intros path Hout. rewrite ensure_files_exist_lookup.
    destruct (st !! path); [done|]. by rewrite bool_decide_eq_false_2.
Qed.

(** [ensure_files_exist] is idempotent: running it again changes nothing. *)
Theorem ensure_files_exist_idempotent (st : files) :
  ensure_files_exist (ensure_files_exist st) = ensure_files_exist st.
Proof.
  apply map_eq. intros path. rewrite (ensure_files_exist_lookup (_ st)).
  destruct (ensure_files_exist st !! path) as [data|] eqn:Hp; [done|].
  rewrite ensure_files_exist_lookup in Hp.
  destruct (st !! path); [done|]. by case_bool_decide.
Qed.

(** ** The storage accessors *)


(** ** Failures change nothing *)

Lemma step_raise_unchanged (st st' : files) r e :
  step st r (Raise e) st' → st' = st.
Proof. by inversion 1. Qed.

(** Whatever the request and the state, an endpoint that raises (an HTTP
    error, a missing key or a missing file) leaves every file exactly as it
    was: there is no partial write. *)
Theorem handle_raise_unchanged (r : request) (st : files) (e : exn) :
  (handle r st).1 = Raise e → (handle r st).2 = st.
Proof.
  intros Hraise. pose proof (handle_step r st) as Hstep.
  rewrite Hraise in Hstep. by eapply step_raise_unchanged.
Qed.

Lemma handle_raise_unchanged_witness :
  (handle (RegisterUser alice) sample).1 = Raise DuplicateEntity
  ∧ (handle (RegisterUser alice) sample).2 = sample.
Proof.
  assert (Hraise : (handle (RegisterUser alice) sample).1
                   = Raise DuplicateEntity) by (by vm_compute).
  split; [exact Hraise|].
  exact (handle_raise_unchanged (RegisterUser alice) sample _ Hraise).
Defined.

(** ** No endpoint creates or removes a file *)

Lemma step_dom (st st' : files) r o :
  step st r o st' → dom st' = dom st.
Proof.
  assert (Hins : ∀ (path : string) (old new : list dict),
    st !! path = Some old → dom (<[path := new]> st) = dom st).
  { intros path old new Hold. rewrite dom_insert_L.
    apply subseteq_union_1_L, singleton_subseteq_l, elem_of_dom.
    by eexists. }
  inversion 1; subst; try done; by eapply Hins.
Qed.

(** Serving any sequence of requests leaves the set of existing files as it
    was: the endpoints only rewrite files they could read, so a collection
    file that is missing is never created and none is ever removed.  In
    particular a missing file stays missing. *)
Theorem serve_preserves_files (reqs : list request) (st : files) :
  dom (serve reqs st).2 = dom st
  ∧ ∀ path, st !! path = None → (serve reqs st).2 !! path = None.
Proof.
  assert (Hdom : dom (serve reqs st).2 = dom st).
  { pose proof (serve_steps reqs st) as Hsteps.
    induction Hsteps as [st|st st' st'' r o log Hstep _ IH]; [done|].
    rewrite IH. by eapply step_dom. }
  split; [done|]. intros path Hnone.
  apply not_elem_of_dom. rewrite Hdom. by apply not_elem_of_dom.
Qed.

(** ** Collections are append-only *)

Lemma step_appends (st st' : files) r o (path : string) (rows : list dict) :
  step st r o st' →
  st !! path = Some rows →
  ∃ new, st' !! path = Some (rows ++ new) ∧ (length new ≤ 1)%nat.
Proof.
  intros Hstep Hrows.
  assert (Hins : ∀ (own : string) (old : list dict) (row : dict),
    st !! own = Some old →
    ∃ new, (<[own := old ++ [row]]> st : files) !! path = Some (rows ++ new)
           ∧ (length new ≤ 1)%nat).
  { intros own old row Hold. destruct (decide (own = path)) as [->|Hne].
    - exists [row]. rewrite lookup_insert_eq. split; [|done].
      by assert (old = rows) as -> by congruence.
    - exists []. rewrite lookup_insert_ne, app_nil_r by done.
      split; [done | cbn; lia]. }
  inversion Hstep; subst; try (by eapply Hins);
    exists []; rewrite app_nil_r; (split; [done | cbn; lia]).
Qed.

(** Serving any sequence of requests from any state only appends: whatever a
    file held before is a prefix, in the same order and unmodified, of what
    it holds afterwards, and at most one record is added per request. *)
Theorem serve_appends (reqs : list request) (st : files) (path : string)
    (rows : list dict) :
  st !! path = Some rows →
  ∃ new,
    (serve reqs st).2 !! path = Some (rows ++ new)
    ∧ (length new ≤ length reqs)%nat.
Proof.
  revert st rows. induction reqs as [|r reqs IH]; intros st rows Hrows.
  { exists []. by rewrite app_nil_r. }
  rewrite serve_cons. cbn [fst snd].
  destruct (step_appends _ _ _ _ path rows (handle_step r st) Hrows)
    as (new & Hnew & Hlen).
  destruct (IH _ _ Hnew) as (new' & Hnew' & Hlen').
  exists (new ++ new'). rewrite app_assoc. split; [done|].
  rewrite length_app. cbn [length]. lia.
Qed.

Lemma serve_appends_witness :
  ∃ new,
    (serve [RegisterUser bob; RegisterUser (UserCreate.mk "Carol" "c@x.com")]
       sample).2 !! USERS_FILE
    = Some ([user_record "0001" alice; user_record "0002" bob] ++ new)
    ∧ (length new ≤ 2)%nat.
Proof.
  pose proof sample_files as (Hu & _ & _).
  exact (serve_appends
           [RegisterUser bob; RegisterUser (UserCreate.mk "Carol" "c@x.com")]
           sample USERS_FILE _ Hu).
Defined.

(** ** Which errors an endpoint can raise *)







(** ** Missing files and malformed records *)

(** [evaluate_lecturer] reads the three files, in the order users, lecturers,
    evaluations, before it validates anything: if one is missing the call
    raises [FileNotFoundError] for the first missing one, whatever the
    request says (even one naming an unknown user or carrying a rating out
    of range), and the files are left as they were. *)
Theorem evaluate_lecturer_missing_file (evaluation : EvaluationCreate.t)
    (st : files) :
  (st !! USERS_FILE = None →
   evaluate_lecturer evaluation st
   = (Raise (FileNotFoundError USERS_FILE), st))
  ∧ (is_Some (st !! USERS_FILE) → st !! LECTURERS_FILE = None →
     evaluate_lecturer evaluation st
     = (Raise (FileNotFoundError LECTURERS_FILE), st))
  ∧ (is_Some (st !! USERS_FILE) → is_Some (st !! LECTURERS_FILE) →
     st !! EVALUATIONS_FILE = None →
     evaluate_lecturer evaluation st
     = (Raise (FileNotFoundError EVALUATIONS_FILE), st)).
Proof.
  unfold evaluate_lecturer. io_unfold. split_and!.
  - by intros ->.
  - by intros [users ->] ->.
  - by intros [users ->] [lecturers ->] ->.
Qed.

Lemma evaluate_lecturer_missing_file_witness :
  let st : files := delete EVALUATIONS_FILE sample in
  evaluate_lecturer (EvaluationCreate.mk "0009" "L0001" 0 None) st
  = (Raise (FileNotFoundError EVALUATIONS_FILE), st).
Proof.
  intros st.
  apply (evaluate_lecturer_missing_file
           (EvaluationCreate.mk "0009" "L0001" 0 None) st).
  - unfold st. rewrite lookup_delete_ne by done.
    rewrite (proj1 sample_files). by eexists.
  - unfold st. rewrite lookup_delete_ne by done.
    rewrite (proj1 (proj2 sample_files)). by eexists.
  - apply lookup_delete_eq.
Defined.

Lemma any_app {A : Type} (p : A → outcome bool) (xs ys : list A) :
  any p (xs ++ ys)
  = match any p xs with
    | Return false => any p ys
    | found_or_raised => found_or_raised
    end.
Proof.
  induction xs as [|x xs IH]; [done|]. cbn [any app].
  by destruct (p x) as [[]|e].
Qed.

(** The duplicate check of [register_user] scans the stored users in order
    and stops at the first match.  When a stored record has no ["email"] key
    and the records before it are well formed: a candidate whose address
    occurs before the malformed record is still rejected as a duplicate,
    and any other candidate makes the call raise [KeyError] on that record,
    so nobody new can be registered; the files are left as they were. *)
Theorem register_user_malformed_record (user : UserCreate.t) (st : files)
    (before after : list dict) (bad : dict) :
  st !! USERS_FILE = Some (before ++ bad :: after) →
  has_field "email" before →
  bad !! "email" = None →
  (Some (JStr (UserCreate.email user)) ∈ column "email" before →
   register_user user st = (Raise DuplicateEntity, st))
  ∧ (Some (JStr (UserCreate.email user)) ∉ column "email" before →
     register_user user st = (Raise (KeyError "email"), st)).
Proof.
  intros Hu Hwf Hbad. unfold register_user. io_unfold.
  rewrite Hu, any_app, (any_field_equals _ _ _ Hwf). split; intros Hin.
  - by rewrite bool_decide_eq_true_2.
  - rewrite bool_decide_eq_false_2 by done. cbn [any].
    unfold field_equals at 1, getitem. by rewrite Hbad.
Qed.

Lemma register_user_malformed_record_witness :
  let st : files :=
    <[USERS_FILE := [user_record "0001" alice;
                     {[ "index" := JStr "0002"; "name" := JStr "Bob" ]};
                     user_record "0003" bob]]> sample in
  register_user alice st = (Raise DuplicateEntity, st)
  ∧ register_user bob st = (Raise (KeyError "email"), st).
Proof.
  intros st.
  assert (Hu : st !! USERS_FILE
               = Some ([user_record "0001" alice]
                       ++ {[ "index" := JStr "0002"; "name" := JStr "Bob" ]}
                          :: [user_record "0003" bob]))
    by apply lookup_insert_eq.
  assert (Hwf : has_field "email" [user_record "0001" alice])
    by (apply (bool_decide_unpack _); by vm_compute).
  assert (Hbad : ({[ "index" := JStr "0002"; "name" := JStr "Bob" ]} : dict)
                   !! "email" = None) by (by vm_compute).
  split.
  - apply (register_user_malformed_record alice st _ _ _ Hu Hwf Hbad).
    apply (bool_decide_unpack _). by vm_compute.
  - apply (register_user_malformed_record bob st _ _ _ Hu Hwf Hbad).
    apply (bool_decide_unpack _). by vm_compute.
Defined.

(** ** How the operations compose *)

(** Registering an address twice: on a well-formed users collection that
    does not hold the address, the first registration succeeds, and a second
    registration with the same address (whatever the name) raises
    DuplicateEntity and leaves the state of the first untouched, so exactly
    one record was added. *)
Theorem register_user_twice (user user' : UserCreate.t) (st : files)
    (users : list dict) :
  st !! USERS_FILE = Some users →
  has_field "email" users →
  Some (JStr (UserCreate.email user)) ∉ column "email" users →
  UserCreate.email user' = UserCreate.email user →
  let user_index := format_04d (length users + 1) in
  let st' := <[USERS_FILE := users ++ [user_record user_index user]]> st in
  register_user user st = (Return (user_registered user_index), st')
  ∧ register_user user' st' = (Raise DuplicateEntity, st').
Proof.
  intros Hu Hwf Hfresh Hemail user_index st'. split.
  - by apply register_user_fresh.
  - apply (register_user_duplicate user' st'
             (users ++ [user_record user_index user])).
    + apply lookup_insert_eq.
    + apply has_field_app. split; [done|]. repeat constructor.
      by eexists.
    + rewrite column_app, elem_of_app. right. rewrite Hemail.
      apply list_elem_of_singleton.
      by destruct (user_record_fields user_index user) as (_ & _ & ->).
Qed.

Lemma register_user_twice_witness :
  let carol := UserCreate.mk "Carol" "c@x.com" in
  let st' :=
    <[USERS_FILE := [user_record "0001" alice; user_record "0002" bob;
                     user_record "0003" carol]]> sample in
  register_user carol sample = (Return (user_registered "0003"), st')
  ∧ register_user (UserCreate.mk "Caroline" "c@x.com") st'
    = (Raise DuplicateEntity, st').
Proof.
  intros carol st'.
  pose proof sample_files as (Hu & _ & _).
  apply (register_user_twice carol (UserCreate.mk "Caroline" "c@x.com")
           sample _ Hu).
  - apply (bool_decide_unpack _). by vm_compute.
  - apply (bool_decide_unpack _). by vm_compute.
  - reflexivity.
Defined.

Lemma has_field_snoc key (rows : list dict) (row : dict) :
  has_field key rows → is_Some (row !! key) → has_field key (rows ++ [row]).
Proof.
  intros Hwf Hrow. apply has_field_app. split; [done|]. by repeat constructor.
Qed.

Lemma column_snoc_last key (rows : list dict) (row : dict) (v : json) :
  row !! key = Some v → Some v ∈ column key (rows ++ [row]).
Proof.
  intros Hv. rewrite column_app, elem_of_app. right.
  apply list_elem_of_singleton. by cbn.
Qed.

(** The identifiers the create endpoints hand out are the ones the
    evaluation endpoint accepts: on well-formed collections, after a
    successful registration and a lecturer addition, an evaluation naming
    the returned index and the returned id, with a rating in [1,5], is
    accepted and stored. *)
Theorem returned_identifiers_are_accepted
    (user : UserCreate.t) (lecturer : LecturerCreate.t) (rating : Z)
    (comments : option string)
    (st : files) (users lecturers evaluations : list dict) :
  collections st users lecturers evaluations →
  has_field "email" users →
  Some (JStr (UserCreate.email user)) ∉ column "email" users →
  (1 ≤ rating ≤ 5)%Z →
  ∃ (user_index lecturer_id : string) (st1 st2 st3 : files),
    register_user user st = (Return (user_registered user_index), st1)
    ∧ add_lecturer lecturer st1 = (Return (lecturer_added lecturer_id), st2)
    ∧ evaluate_lecturer
        (EvaluationCreate.mk user_index lecturer_id rating comments) st2
      = (Return evaluation_submitted, st3)
    ∧ st3 !! EVALUATIONS_FILE
      = Some (evaluations
              ++ [evaluation_record
                    (EvaluationCreate.mk user_index lecturer_id rating
                       comments)]).
Proof.
  intros [Hu Hl He Hwf Hwf'] Hmail Hfresh Hr.
  set (user_index := format_04d (length users + 1)).
  set (lecturer_id := "L" +:+ format_04d (length lecturers + 1)).
  set (st1 := <[USERS_FILE := users ++ [user_record user_index user]]> st).
  set (st2 := <[LECTURERS_FILE :=
                  lecturers ++ [lecturer_record lecturer_id lecturer]]> st1).
  exists user_index, lecturer_id, st1, st2.
  eexists. split_and!.
  - by apply register_user_fresh.
  - apply add_lecturer_appends. unfold st1. by rewrite lookup_insert_ne.
  - eapply (evaluate_lecturer_accepted _ st2
              (users ++ [user_record user_index user])
              (lecturers ++ [lecturer_record lecturer_id lecturer])
              evaluations).
    + unfold st2, st1. rewrite lookup_insert_ne by done.
      apply lookup_insert_eq.
    + unfold st2. apply lookup_insert_eq.
    + unfold st2, st1. by rewrite !lookup_insert_ne.
    + apply has_field_snoc; [done | by eexists].
    + by apply column_snoc_last.
    + apply has_field_snoc; [done | by eexists].
    + by apply column_snoc_last.
    + done.
  - apply lookup_insert_eq.
Qed.

Lemma returned_identifiers_are_accepted_witness :
  ∃ (user_index lecturer_id : string) (st1 st2 st3 : files),
    register_user (UserCreate.mk "Carol" "c@x.com") sample
    = (Return (user_registered user_index), st1)
    ∧ add_lecturer (LecturerCreate.mk "Dr. Y" "Math") st1
      = (Return (lecturer_added lecturer_id), st2)
    ∧ evaluate_lecturer
        (EvaluationCreate.mk user_index lecturer_id 4 None) st2
      = (Return evaluation_submitted, st3).
Proof.
  assert (Hwf : has_field "email"
                  [user_record "0001" alice; user_record "0002" bob])
    by (apply (bool_decide_unpack _); by vm_compute).
  assert (Hfresh : Some (JStr "c@x.com")
                   ∉ column "email"
                       [user_record "0001" alice; user_record "0002" bob])
    by (apply (bool_decide_unpack _); by vm_compute).
  assert (Hr : (1 ≤ 4 ≤ 5)%Z) by lia.
  destruct (returned_identifiers_are_accepted
              (UserCreate.mk "Carol" "c@x.com")
              (LecturerCreate.mk "Dr. Y" "Math") 4 None sample _ _ _
              sample_collections Hwf Hfresh Hr)
    as (user_index & lecturer_id & st1 & st2 & st3 & H1 & H2 & H3 & _).
  exists user_index, lecturer_id, st1, st2, st3.
  split; [exact H1|]. split; [exact H2 | exact H3].
Defined.

(** Evaluations are not deduplicated: an accepted evaluation submitted a
    second time is accepted again, and the collection then ends with two
    equal records. *)
Theorem evaluate_lecturer_twice (evaluation : EvaluationCreate.t)
    (st : files) (users lecturers evaluations : list dict) :
  collections st users lecturers evaluations →
  first_failure_user_first evaluation users lecturers = None →
  let stored := evaluation_record evaluation in
  let st' := <[EVALUATIONS_FILE := evaluations ++ [stored]]> st in
  evaluate_lecturer evaluation st = (Return evaluation_submitted, st')
  ∧ evaluate_lecturer evaluation st'
    = (Return evaluation_submitted,
       <[EVALUATIONS_FILE := evaluations ++ [stored; stored]]> st).
Proof.
  intros Hst Hok stored st'.
  assert (Hst' : collections st' users lecturers (evaluations ++ [stored])).
  { destruct Hst as [Hu Hl He Hwf Hwf'].
    split; try done; unfold st'; by rewrite ?lookup_insert_eq,
      ?lookup_insert_ne. }
  rewrite (evaluate_lecturer_first_failure _ _ _ _ _ Hst), Hok.
  rewrite (evaluate_lecturer_first_failure _ _ _ _ _ Hst'), Hok.
  split; [done|]. unfold st'.
  by rewrite insert_insert_eq, <- app_assoc.
Qed.

Lemma evaluate_lecturer_twice_witness :
  evaluate_lecturer praise sample
  = (Return evaluation_submitted,
     <[EVALUATIONS_FILE :=
         [evaluation_record praise; evaluation_record praise]]> sample)
  ∧ evaluate_lecturer praise
      (<[EVALUATIONS_FILE :=
           [evaluation_record praise; evaluation_record praise]]> sample)
    = (Return evaluation_submitted,
       <[EVALUATIONS_FILE :=
           [evaluation_record praise; evaluation_record praise;
            evaluation_record praise]]> sample).
Proof.
  assert (Hok : first_failure_user_first praise
                  [user_record "0001" alice; user_record "0002" bob]
                  [lecturer_record "L0001" dr_x] = None) by (by vm_compute).
  exact (evaluate_lecturer_twice praise sample _ _ _ sample_collections Hok).
Defined.

(** ** Identifiers come from the collection length *)

(** The index of a new user is computed from the number of stored users
    only, never from the stored indices.  So on a users collection that
    already holds the index ["%04d" % (count + 1)] (say after a record was
    removed from the file by hand), a registration still succeeds and stores
    a second user under the same index: indices are no longer unique. *)
Theorem register_user_index_collision (user : UserCreate.t) (st : files)
    (users : list dict) :
  st !! USERS_FILE = Some users →
  has_field "email" users →
  Some (JStr (UserCreate.email user)) ∉ column "email" users →
  Some (JStr (format_04d (length users + 1))) ∈ column "index" users →
  ∃ (st' : files) (users' : list dict),
    register_user user st
    = (Return (user_registered (format_04d (length users + 1))), st')
    ∧ st' !! USERS_FILE = Some users'
    ∧ ¬ NoDup (column "index" users').
Proof.
  intros Hu Hwf Hfresh Hclash.
  eexists _, _. split_and!.
  - by apply register_user_fresh.
  - apply lookup_insert_eq.
  - rewrite column_app. intros Hnodup. apply NoDup_app in Hnodup.
    destruct Hnodup as (_ & Hdisjoint & _).
    apply (Hdisjoint _ Hclash). apply list_elem_of_singleton. by cbn.
Qed.

Lemma register_user_index_collision_witness :
  ∃ (st' : files) (users' : list dict),
    register_user alice (<[USERS_FILE := [user_record "0002" bob]]> sample)
    = (Return (user_registered "0002"), st')
    ∧ st' !! USERS_FILE = Some users'
    ∧ ¬ NoDup (column "index" users').
Proof.
  apply (register_user_index_collision alice
           (<[USERS_FILE := [user_record "0002" bob]]> sample)
           [user_record "0002" bob]).
  - apply lookup_insert_eq.
  - apply (bool_decide_unpack _). by vm_compute.
  - apply (bool_decide_unpack _). by vm_compute.
  - apply (bool_decide_unpack _). by vm_compute.
Defined.

(** ** The identifier format *)

Lemma nat_of_str_not_digit (s : string) : nat_of_str (String "L" s) = None.
Proof.
  unfold nat_of_str. cbn [NilEmpty.uint_of_string].
  by destruct (NilEmpty.uint_of_string s).
Qed.

(** Identifiers never collide by formatting: two different counts give two
    different user indices and two different lecturer ids (also beyond 9999,
    where the number is printed in full rather than cut to four digits), and
    a lecturer id is never equal to a user index. *)
Theorem identifiers_distinct (n m : nat) :
  (format_04d n = format_04d m → n = m)
  ∧ ("L" +:+ format_04d n = "L" +:+ format_04d m → n = m)
  ∧ "L" +:+ format_04d n ≠ format_04d m.
Proof.
  split_and!.
  - apply (inj format_04d).
  - intros Heq. apply (inj format_04d). by injection Heq.
  - intros Heq. apply (f_equal nat_of_str) in Heq.
    change ("L" +:+ format_04d n) with (String "L" (format_04d n)) in Heq.
    by rewrite nat_of_str_not_digit, nat_of_str_format_04d in Heq.
Qed.

Lemma length_string_app (s t : string) :
  String.length (s +:+ t) = (String.length s + String.length t)%nat.
Proof.
  induction s as [|c s IH]; [done|].
  change (String c s +:+ t) with (String c (s +:+ t)).
  cbn [String.length]. by rewrite IH.
Qed.

Lemma length_zeros (k : nat) : String.length (zeros k) = k.
Proof.
  induction k as [|k IH]; [done|]. cbn [zeros String.length]. by rewrite IH.
Qed.

Lemma length_zfill (width : nat) (s : string) :
  String.length (zfill width s) = (width `max` String.length s)%nat.
Proof. unfold zfill. rewrite length_string_app, length_zeros. lia. Qed.

Lemma length_string_of_uint (d : uint) :
  String.length (NilEmpty.string_of_uint d) = nb_digits d.
Proof. induction d; cbn; by rewrite ?IHd. Qed.

Lemma of_lu_bound (d : uint) :
  (DecimalNat.Unsigned.of_lu d < 10 ^ nb_digits d)%nat.
Proof.
  induction d; cbn [DecimalNat.Unsigned.of_lu nb_digits];
    rewrite ?Nat.pow_succ_r'; cbn [Nat.pow]; lia.
Qed.

Lemma str_of_nat_bound (n : nat) :
  (n < 10 ^ String.length (str_of_nat n))%nat.
Proof.
  unfold str_of_nat. rewrite length_string_of_uint.
  rewrite DecimalNat.Unsigned.to_uint_alt, DecimalFacts.nb_digits_rev.
  rewrite <- (DecimalNat.Unsigned.of_to_lu n) at 1. apply of_lu_bound.
Qed.

Lemma str_of_nat_short (n : nat) :
  (n < 100 * 100)%nat → (String.length (str_of_nat n) ≤ 4)%nat.
Proof.
  intros Hn.
  assert (Hall : forallb (λ k, Nat.leb (String.length (str_of_nat k)) 4)
                   (seq 0 (100 * 100)) = true) by (by vm_compute).
  rewrite forallb_forall in Hall.
  apply Nat.leb_le, Hall, in_seq. lia.
Qed.

(** A formatted number is four characters wide for every count up to 9999;
    from 10000 on the width is exceeded, the result being longer than four
    characters rather than truncated. *)
Theorem format_04d_length (n : nat) :
  ((n < 100 * 100)%nat → String.length (format_04d n) = 4)
  ∧ ((100 * 100 ≤ n)%nat → (4 < String.length (format_04d n))%nat).
Proof.
  unfold format_04d. rewrite length_zfill. split; intros Hn.
  - pose proof (str_of_nat_short n Hn). lia.
  - pose proof (str_of_nat_bound n) as Hb.
    destruct (decide (String.length (str_of_nat n) ≤ 4)%nat) as [Hle|]; [|lia].
    pose proof (Nat.pow_le_mono_r 10 _ 4 ltac:(lia) Hle) as Hpow.
    change (10 ^ 4) with (100 * 100) in Hpow. lia.
Qed.

Lemma format_04d_length_witness :
  String.length (format_04d (99 * 101)) = 4
  ∧ (4 < String.length (format_04d (100 * 100)))%nat.
Proof.
  split.
  - apply (format_04d_length (99 * 101)). lia.
  - apply (format_04d_length (100 * 100)). lia.
Defined.

(** ** No internal errors once the files exist *)

Lemma initial_well_formed : well_formed initial.
Proof.
  pose proof initial_files as (Hu & Hl & He).
  exists [], [], []. split; [split|]; try done; constructor.
Qed.

Lemma step_well_formed (st st' : files) r o :
  step st r o st' → well_formed st → well_formed st'.
Proof.
  intros Hstep (users & lecturers & evaluations & [Hu Hl He Hwf Hwf'] & Hmail).
  inversion Hstep as
    [r' e| |ls Hls|es Hes|user us Hus Hfresh|lecturer ls Hls
    |ev us ls es Hus Hls Hes Huser Hlect Hr]; subst;
    try (by exists users, lecturers, evaluations).
  - assert (us = users) as -> by congruence.
    exists (users ++ [user_record (format_04d (length users + 1)) user]),
      lecturers, evaluations.
    split; [split|]; rewrite ?lookup_insert_eq, ?lookup_insert_ne by done;
      try done; apply has_field_snoc; try done; by eexists.
  - assert (ls = lecturers) as -> by congruence.
    eexists users, (lecturers ++ [_]), evaluations.
    split; [split|]; rewrite ?lookup_insert_eq, ?lookup_insert_ne by done;
      try done; apply has_field_snoc; try done; by eexists.
  - assert (es = evaluations) as -> by congruence.
    exists users, lecturers, (evaluations ++ [evaluation_record ev]).
    split; [split|]; rewrite ?lookup_insert_eq, ?lookup_insert_ne by done;
      done.
Qed.

Lemma handle_well_formed_raise (r : request) (st : files) (e : exn) :
  well_formed st →
  (handle r st).1 = Raise e →
  e ∈ possible_errors r.
Proof.
  intros (users & lecturers & evaluations & Hst & Hmail).
  pose proof Hst as [Hu Hl He Hwf Hwf'].
  destruct r as [user|lecturer| |evaluation| |];
    unfold handle, fmap, io_fmap.
  - destruct (decide (Some (JStr (UserCreate.email user))
                      ∈ column "email" users)) as [Hdup|Hfresh].
    + rewrite (register_user_duplicate _ _ _ Hu Hmail Hdup). cbn [fst].
      intros [= <-]. by apply list_elem_of_singleton.
    + by rewrite (register_user_fresh _ _ _ Hu Hmail Hfresh).
  - by rewrite (add_lecturer_appends _ _ _ Hl).
  - by rewrite (list_lecturers_returns _ _ Hl).
  - rewrite (evaluate_lecturer_first_failure _ _ _ _ _ Hst).
    unfold first_failure_user_first.
    repeat (destruct (negb _)); cbn [fst]; try done;
      intros [= <-]; cbn [possible_errors]; set_unfold; tauto.
  - by rewrite (get_evaluations_returns _ _ He).
  - done.
Qed.

(** Serve any sequence of requests from the state in which the three
    collections are empty.  No call ever fails for an internal reason (a
    missing file or a missing key): adding a lecturer, the two list calls
    and the root call always return; a registration that fails fails with
    DuplicateEntity; an evaluation that fails fails with user not found,
    lecturer not found or rating out of range. *)
Theorem serve_raises_only_client_errors (reqs : list request) (r : request)
    (e : exn) :
  (r, Raise e) ∈ (serve reqs initial).1 →
  e ∈ possible_errors r.
Proof.
  assert (Hgen : ∀ st, well_formed st →
            (r, Raise e) ∈ (serve reqs st).1 → e ∈ possible_errors r).
  { induction reqs as [|r' reqs IH]; intros st Hst.
    - cbn. by intros ?%elem_of_nil.
    - rewrite serve_cons. cbn [fst]. rewrite elem_of_cons.
      intros [[= -> Hraise]|Hin].
      + by eapply handle_well_formed_raise.
      + eapply IH; [|exact Hin].
        eapply step_well_formed; [apply handle_step|done]. }
  apply Hgen, initial_well_formed.
Qed.

Lemma serve_raises_only_client_errors_witness :
  (RegisterUser alice, Raise DuplicateEntity)
    ∈ (serve [RegisterUser alice; ListLecturers; RegisterUser alice]
         initial).1
  ∧ DuplicateEntity ∈ possible_errors (RegisterUser alice).
Proof.
  assert (Hin : (RegisterUser alice, Raise DuplicateEntity)
                ∈ (serve [RegisterUser alice; ListLecturers;
                          RegisterUser alice] initial).1).
  { assert (Hlog :
      (serve [RegisterUser alice; ListLecturers; RegisterUser alice]
         initial).1
      = [(RegisterUser alice, Return (Object (user_registered "0001")));
         (ListLecturers, Return (Array []));
         (RegisterUser alice, Raise DuplicateEntity)])
      by (vm_compute; reflexivity).
    rewrite Hlog, !elem_of_cons. auto. }
  split; [exact Hin|].
  exact (serve_raises_only_client_errors _ _ _ Hin).
Defined.

(** ** Failed requests leave no trace *)

(** The requests that failed can be dropped from a run: serving only the
    requests that returned, in the same order and from the same state,
    gives the same responses and the same final state. *)
Theorem serve_failed_requests_removable (reqs : list request) (st : files) :
  let log := List.filter succeeded (serve reqs st).1 in
  serve (log.*1) st = (log, (serve reqs st).2).
Proof.
  revert st. induction reqs as [|r reqs IH]; intros st; [done|].
  cbn zeta in *. rewrite serve_cons. cbn [fst snd List.filter].
  destruct (handle r st) as [[resp|e] st'] eqn:Hr; cbn [succeeded fst snd].
  - cbn [fmap list_fmap fst]. rewrite serve_cons, Hr. cbn [fst snd].
    by rewrite IH.
  - pose proof (handle_step r st) as Hstep. rewrite Hr in Hstep.
    apply step_raise_unchanged in Hstep. cbn in Hstep. subst st'.
    apply IH.
Qed.

(** ** Restarting the application *)

(** Once [ensure_files_exist] has run, serving requests never brings the
    files into a state that a later run of [ensure_files_exist] (a restart
    of the application) would change: no stored record is lost or reset. *)
Theorem restart_keeps_data (reqs : list request) (st : files) :
  let st' := (serve reqs (ensure_files_exist st)).2 in
  ensure_files_exist st' = st'.
Proof.
  intros st'. apply map_eq. intros path.
  rewrite ensure_files_exist_lookup.
  destruct (st' !! path) as [data|] eqn:Hp; [done|].
  rewrite bool_decide_eq_false_2; [done|]. intros Hin.
  assert (Hdom : dom st' = dom (ensure_files_exist st)).
  { pose proof (serve_steps reqs (ensure_files_exist st)) as Hsteps.
    fold st' in Hsteps. clearbody st'. clear Hp.
    induction Hsteps as [s|s s' s'' r o log Hstep _ IH]; [done|].
    rewrite IH. by eapply step_dom. }
  apply not_elem_of_dom in Hp. rewrite Hdom in Hp. apply Hp.
  apply elem_of_dom. rewrite ensure_files_exist_lookup.
  destruct (st !! path); [by eexists|].
  rewrite bool_decide_eq_true_2 by done. by eexists.
Qed.

(** ** Independent creations commute *)

Lemma register_user_insert_other (user : UserCreate.t) (st : files)
    (path : string) (data : list dict) :
  path ≠ USERS_FILE →
  register_user user (<[path := data]> st)
  = ((register_user user st).1, <[path := data]> (register_user user st).2).
Proof.
  intros Hne. unfold register_user, generate_user_index. io_unfold.
  rewrite lookup_insert_ne by done.
  destruct (st !! USERS_FILE) as [users|] eqn:Hu; [|done].
  destruct (any _ users) as [[]|e]; try done.
  rewrite lookup_insert_ne, Hu by done. cbn [fst snd].
  by rewrite insert_insert_ne.
Qed.

Lemma add_lecturer_insert_other (lecturer : LecturerCreate.t) (st : files)
    (path : string) (data : list dict) :
  path ≠ LECTURERS_FILE →
  add_lecturer lecturer (<[path := data]> st)
  = ((add_lecturer lecturer st).1,
     <[path := data]> (add_lecturer lecturer st).2).
Proof.
  intros Hne. unfold add_lecturer, generate_lecturer_id. io_unfold.
  rewrite lookup_insert_ne by done.
  destruct (st !! LECTURERS_FILE) as [lecturers|] eqn:Hl; [|done].
  rewrite lookup_insert_ne, Hl by done. cbn [fst snd].
  by rewrite insert_insert_ne.
Qed.

(** Registering a user and adding a lecturer do not interfere: in either
    order, from any state, each call has the same outcome (the same returned
    identifier or the same error) and the final state is the same. *)
Theorem register_user_add_lecturer_commute (user : UserCreate.t)
    (lecturer : LecturerCreate.t) (st : files) :
  ∃ st' : files,
    register_user user (add_lecturer lecturer st).2
    = ((register_user user st).1, st')
    ∧ add_lecturer lecturer (register_user user st).2
      = ((add_lecturer lecturer st).1, st').
Proof.
  destruct (register_user_cases user st)
    as [[e Hr]|(users & Hu & Hfresh & Hr)];
    destruct (add_lecturer_cases lecturer st)
      as [[e' Ha]|(lecturers & Hl & Ha)];
    cbn zeta in *; rewrite ?Hr, ?Ha; cbn [fst snd].
  - exists st. by rewrite Hr, Ha.
  - eexists. rewrite register_user_insert_other, Hr, Ha by done. done.
  - eexists. rewrite add_lecturer_insert_other, Hr, Ha by done. done.
  - eexists. rewrite register_user_insert_other, add_lecturer_insert_other,
      Hr, Ha by done.
    cbn [fst snd]. split; [done|]. by rewrite insert_insert_ne.
Qed.

(** ** Decisions are stable *)

Lemma steps_well_formed_extends (st st' : files) log
    (users lecturers evaluations : list dict) :
  steps st log st' →
  collections st users lecturers evaluations →
  has_field "email" users →
  ∃ users' lecturers' evaluations',
    collections st' (users ++ users') (lecturers ++ lecturers')
      (evaluations ++ evaluations')
    ∧ has_field "email" (users ++ users').
Proof.
  intros Hsteps. revert users lecturers evaluations.
  induction Hsteps as [st|st st' st'' r o log Hstep _ IH];
    intros users lecturers evaluations Hst Hmail.
  { exists [], [], []. by rewrite !app_nil_r. }
  pose proof Hst as [Hu Hl He Hwf Hwf'].
  inversion Hstep as
    [r' e| |ls Hls|es Hes|user us Hus Hfresh|lecturer ls Hls
    |ev us ls es Hus Hls Hes Huser Hlect Hr]; subst;
    try (by apply IH).
  - assert (us = users) as -> by congruence.
    destruct (IH (users ++ [user_record (format_04d (length users + 1)) user])
                lecturers evaluations)
      as (users' & lecturers' & evaluations' & Hst' & Hmail').
    + split; rewrite ?lookup_insert_eq, ?lookup_insert_ne by done;
        try done. apply has_field_snoc; [done | by eexists].
    + apply has_field_snoc; [done | by eexists].
    + rewrite <- app_assoc in Hst', Hmail'. eauto.
  - assert (ls = lecturers) as -> by congruence.
    set (row := lecturer_record _ lecturer) in *.
    destruct (IH users (lecturers ++ [row]) evaluations)
      as (users' & lecturers' & evaluations' & Hst' & Hmail').
    + split; rewrite ?lookup_insert_eq, ?lookup_insert_ne by done;
        try done. apply has_field_snoc; [done | by eexists].
    + done.
    + rewrite <- app_assoc in Hst'. eauto.
  - assert (es = evaluations) as -> by congruence.
    destruct (IH users lecturers (evaluations ++ [evaluation_record ev]))
      as (users' & lecturers' & evaluations' & Hst' & Hmail').
    + split; by rewrite ?lookup_insert_eq, ?lookup_insert_ne.
    + done.
    + rewrite <- app_assoc in Hst'. eauto.
Qed.

(** On well-formed collections the answers never flip back: whatever
    requests are served in between, an address that is registered stays
    rejected as a duplicate, and an evaluation request that would be
    accepted stays acceptable (its user and its lecturer are never removed). *)
Theorem decisions_are_stable (reqs : list request) (st : files)
    (users lecturers evaluations : list dict) :
  collections st users lecturers evaluations →
  has_field "email" users →
  let st' := (serve reqs st).2 in
  (∀ user,
     Some (JStr (UserCreate.email user)) ∈ column "email" users →
     register_user user st' = (Raise DuplicateEntity, st'))
  ∧ (∀ evaluation,
       first_failure_user_first evaluation users lecturers = None →
       ∃ st'' : files,
         evaluate_lecturer evaluation st'
         = (Return evaluation_submitted, st'')).
Proof.
  intros Hst Hmail st'.
  destruct (steps_well_formed_extends _ _ _ _ _ _ (serve_steps reqs st)
              Hst Hmail)
    as (users' & lecturers' & evaluations' & Hst' & Hmail').
  fold st' in Hst'. split.
  - intros user Hdup.
    apply (register_user_duplicate user st' (users ++ users'));
      [apply Hst' | done |].
    rewrite column_app, elem_of_app. by left.
  - intros evaluation Hok. eexists.
    rewrite (evaluate_lecturer_first_failure _ _ _ _ _ Hst').
    revert Hok. unfold first_failure_user_first, user_exists, lecturer_exists.
    case_bool_decide as Huser; cbn [negb]; [|done].
    case_bool_decide as Hlect; cbn [negb]; [|done].
    destruct (negb _); [done|]. intros _.
    rewrite !bool_decide_eq_true_2; [done|..];
      rewrite column_app, elem_of_app; by left.
Qed.

Lemma decisions_are_stable_witness :
  let st' :=
    (serve [RegisterUser (UserCreate.mk "Carol" "c@x.com");
            AddLecturer dr_x] sample).2 in
  register_user bob st' = (Raise DuplicateEntity, st')
  ∧ ∃ st'' : files,
      evaluate_lecturer praise st' = (Return evaluation_submitted, st'').
Proof.
  intros st'.
  assert (Hwf : has_field "email"
                  [user_record "0001" alice; user_record "0002" bob])
    by (apply (bool_decide_unpack _); by vm_compute).
  destruct (decisions_are_stable
              [RegisterUser (UserCreate.mk "Carol" "c@x.com");
               AddLecturer dr_x] sample _ _ _ sample_collections Hwf)
    as [Hdup Hok].
  split.
  - apply Hdup. apply (bool_decide_unpack _). by vm_compute.
  - apply Hok. by vm_compute.
Defined.
